(** * Personal expense tracker: the client aggregation engine and the
      transaction API, embedded from [src/unnamed/part_000] (the React client)
      and [src/backend/server.js] (the Express server).

    JavaScript numbers are IEEE 754 binary64 values; they are modelled by
    Rocq's primitive floats, whose operations are the same binary64
    operations.  A MongoDB collection is a finite map from [_id] to the
    stored fields. *)

From Stdlib Require Import ZArith List String Ascii Floats Lia Bool Permutation.
From Stdlib Require HexString.
From stdpp Require Import base decidable option list gmap strings sorting.
Import ListNotations.

Local Open Scope string_scope.
Local Open Scope Z_scope.

(** ** JavaScript values *)

(** A property of a JSON object: absent ([undefined] when read), [null], or a
    value of the expected type. *)
Inductive jsopt (A : Type) : Type :=
  | Undefined
  | Null
  | Value (a : A).
Arguments Undefined {A}.
Arguments Null {A}.
Arguments Value {A} a.

(** ObjectIds (12-byte keys) are natural numbers. *)
Abbreviation oid := N.

(** A hexadecimal digit, of either case. *)
Definition is_hex_digit (c : ascii) : bool :=
  match HexString.ascii_to_digit c with
  | Some _ => true
  | None => false
  end.

Fixpoint all_hex (s : string) : bool :=
  match s with
  | EmptyString => true
  | String c s' => is_hex_digit c && all_hex s'
  end.

(** Mongoose's cast of a string to an ObjectId: the string must be 24
    hexadecimal digits; [None] is the CastError.  (Before version 5 of the
    bson library a string of 12 characters was taken as well; no string
    used below has 12 characters.) *)
Definition castObjectId (s : string) : option oid :=
  if Nat.eqb (String.length s) 24 && all_hex s
  then Some (HexString.Raw.to_N s 0%N)
  else None.

(** The hexadecimal digits of a number, without leading zeros. *)
Definition hex_digits (i : oid) : string :=
  match i with
  | N0 => EmptyString
  | Npos p => HexString.Raw.of_pos p EmptyString
  end.

Fixpoint zeros (n : nat) : string :=
  match n with
  | O => EmptyString
  | S n' => String "0" (zeros n')
  end.

(** [id.toHexString()]: the 24 hexadecimal digits of an ObjectId, which is
    also the string JSON carries to the client. *)
Definition toHexString (i : oid) : string :=
  zeros (24 - String.length (hex_digits i)) ++ hex_digits i.

(** The string a template literal makes of the [_id] of a row: [`${id}`]. *)
Definition template_id (rid : jsopt oid) : string :=
  match rid with
  | Undefined => "undefined"
  | Null => "null"
  | Value i => toHexString i
  end.

(** [Number(v)] for a property that holds a number: [Number(undefined)] is
    [NaN], [Number(null)] is [+0]. *)
Definition Number (v : jsopt float) : float :=
  match v with
  | Undefined => nan
  | Null => 0%float
  | Value f => f
  end.

(** [v === s] for a string [s]. *)
Definition strict_eq_string (v : jsopt string) (s : string) : bool :=
  match v with
  | Value x => String.eqb x s
  | _ => false
  end.

(** [a === b] on numbers is IEEE equality: [NaN] differs from itself and the
    two zeros are equal. *)
Definition strict_eq_number (a b : float) : bool := PrimFloat.eqb a b.

(** A string is falsy exactly when it is empty. *)
Definition truthy_string (s : string) : bool := negb (String.eqb s "").

(** ** Transactions as the client receives them *)

Record Expense := mkExpense {
  _id : jsopt oid;
  userId : jsopt oid;
  title : jsopt string;
  amount : jsopt float;
  type : jsopt string;
  category : jsopt string;
  date : jsopt Z            (* time value, milliseconds since the epoch *)
}.

(** ** Dates *)

Definition msPerDay : Z := 86400000.

(** Proleptic Gregorian calendar date of a day number (days since
    1970-01-01): year, month (0..11, as [getMonth]) and day of the month. *)
Definition civil_from_days (days : Z) : Z * Z * Z :=
  let z := days + 719468 in
  let era := z / 146097 in
  let doe := z - era * 146097 in
  let yoe := (doe - doe / 1460 + doe / 36524 - doe / 146096) / 365 in
  let doy := doe - (365 * yoe + yoe / 4 - yoe / 100) in
  let mp := (5 * doy + 2) / 153 in
  let d := doy - (153 * mp + 2) / 5 + 1 in
  let m := if mp <? 10 then mp + 3 else mp - 9 in
  let y := yoe + era * 400 + (if m <=? 2 then 1 else 0) in
  (y, m - 1, d).

(** [new Date(v)]: [None] is the Invalid Date. [new Date(null)] is the
    epoch, [new Date(undefined)] is invalid. *)
Definition new_Date (v : jsopt Z) : option Z :=
  match v with
  | Undefined => None
  | Null => Some 0
  | Value t => Some t
  end.

Section Calendar.

(** The local time zone adjustment of the browser, in milliseconds, at a
    given UTC time value. *)
Variable LocalTZA : Z -> Z.

Definition LocalTime (t : Z) : Z := t + LocalTZA t.

Definition local_civil (t : Z) : Z * Z * Z :=
  civil_from_days (LocalTime t / msPerDay).

(** [getFullYear()] and [getMonth()]; [None] is [NaN]. *)
Definition getFullYear (d : option Z) : option Z :=
  (fun t => fst (fst (local_civil t))) <$> d.

Definition getMonth (d : option Z) : option Z :=
  (fun t => snd (fst (local_civil t))) <$> d.

(** [toDateString()] prints weekday, month, day and year of the local
    date; two such strings are equal exactly when year, month and day
    are.  [None] is the string of the Invalid Date. *)
Definition toDateString (d : option Z) : option (Z * Z * Z) :=
  local_civil <$> d.

(** [a === b] on two results of the getters: [NaN] is equal to nothing. *)
Definition strict_eq_field (a b : option Z) : bool :=
  match a, b with
  | Some x, Some y => x =? y
  | _, _ => false
  end.

Definition strict_eq_dateString (a b : option (Z * Z * Z)) : bool :=
  match a, b with
  | Some (y1, m1, d1), Some (y2, m2, d2) =>
      (y1 =? y2) && (m1 =? m2) && (d1 =? d2)
  | None, None => true
  | _, _ => false
  end.

(** ** The client aggregation engine *)

(** The callback of [expenses.filter] in [timeFilteredExpenses]. *)
Definition inTimeRange (now : option Z) (timeRange : string) (item : Expense) : bool :=
  let itemDate := new_Date (date item) in
  if String.eqb timeRange "daily" then
    strict_eq_dateString (toDateString itemDate) (toDateString now)
  else if String.eqb timeRange "monthly" then
    strict_eq_field (getMonth itemDate) (getMonth now)
    && strict_eq_field (getFullYear itemDate) (getFullYear now)
  else if String.eqb timeRange "yearly" then
    strict_eq_field (getFullYear itemDate) (getFullYear now)
  else true.

(** [now] is the time value of [new Date()] at the call. *)
Definition timeFilteredExpenses (now : Z) (timeRange : string)
    (expenses : list Expense) : list Expense :=
  List.filter (inTimeRange (Some now) timeRange) expenses.

End Calendar.

Record Stats := mkStats {
  totalBalance : float;
  totalIncome : float;
  totalExpense : float;
  totalInvested : float;
  totalWithdrawn : float
}.

Definition stats_init : Stats :=
  {| totalBalance := 0; totalIncome := 0; totalExpense := 0;
     totalInvested := 0; totalWithdrawn := 0 |}.

(** The reducer of [stats]: one [switch] on [curr.type]. *)
Definition stats_step (acc : Stats) (curr : Expense) : Stats :=
  let amt := Number (amount curr) in
  if strict_eq_string (type curr) "income" then
    {| totalBalance := totalBalance acc + amt;
       totalIncome := totalIncome acc + amt;
       totalExpense := totalExpense acc;
       totalInvested := totalInvested acc;
       totalWithdrawn := totalWithdrawn acc |}%float
  else if strict_eq_string (type curr) "expense" then
    {| totalBalance := totalBalance acc - amt;
       totalIncome := totalIncome acc;
       totalExpense := totalExpense acc + amt;
       totalInvested := totalInvested acc;
       totalWithdrawn := totalWithdrawn acc |}%float
  else if strict_eq_string (type curr) "investment" then
    {| totalBalance := totalBalance acc - amt;
       totalIncome := totalIncome acc;
       totalExpense := totalExpense acc;
       totalInvested := totalInvested acc + amt;
       totalWithdrawn := totalWithdrawn acc |}%float
  else if strict_eq_string (type curr) "withdrawal" then
    {| totalBalance := totalBalance acc + amt;
       totalIncome := totalIncome acc;
       totalExpense := totalExpense acc;
       totalInvested := totalInvested acc;
       totalWithdrawn := totalWithdrawn acc + amt |}%float
  else acc.

(** [stats]: [timeFilteredExpenses.reduce(step, init)]. *)
Definition stats (timeFiltered : list Expense) : Stats :=
  fold_left stats_step timeFiltered stats_init.

(** [filteredList]: the list shown under the category selector. *)
Definition filteredList (filterCategory : string) (timeFiltered : list Expense)
    : list Expense :=
  if String.eqb filterCategory "All" then timeFiltered
  else List.filter (fun e => strict_eq_string (category e) filterCategory) timeFiltered.

(** What one render of [App] derives from its state. *)
Record Derived := mkDerived {
  d_stats : Stats;
  d_filteredList : list Expense
}.

Definition derive (LocalTZA : Z -> Z) (now : Z) (timeRange filterCategory : string)
    (expenses : list Expense) : Derived :=
  let tfe := timeFilteredExpenses LocalTZA now timeRange expenses in
  {| d_stats := stats tfe; d_filteredList := filteredList filterCategory tfe |}.

(** The right-hand side of the balance identity, with JavaScript's
    left-to-right evaluation. *)
Definition balance_formula (s : Stats) : float :=
  (totalIncome s + totalWithdrawn s - totalExpense s - totalInvested s)%float.

(** ** Dyadic numbers as binary64 numbers *)

(** The mantissa [c * 2^k]. *)
Definition shl_pos (k : nat) (c : positive) : positive := Nat.iter k xO c.

(** The binary64 number nearest to [z * 2^sc], first as a specification
    float, then as a float: [Z2F 0 2000] is 2000 and [Z2F (-1) 9] is 4.5. *)
Definition Z2SF (sc z : Z) : spec_float := binary_normalize prec emax z sc false.

Definition Z2F (sc z : Z) : float := SF2Prim (Z2SF sc z).

(** The exponents [sc] at which every [z * 2^sc] with [|z| < 2^53] is a
    normal binary64 number. *)
Definition scale_ok (sc : Z) : Prop := -1000 <= sc <= 900.

(** The normalised representation of [z * 2^sc] for [|z| < 2^53]: a 53-bit
    mantissa and the matching exponent. *)
Definition canonSF (sc z : Z) : spec_float :=
  match z with
  | Z0 => S754_zero false
  | Zpos c =>
      S754_finite false (shl_pos (Z.to_nat (53 - Zpos (digits2_pos c))) c)
        (Zpos (digits2_pos c) - 53 + sc)
  | Zneg c =>
      S754_finite true (shl_pos (Z.to_nat (53 - Zpos (digits2_pos c))) c)
        (Zpos (digits2_pos c) - 53 + sc)
  end.

(** [amount_is sc e z]: the amount of [e], read by [Number], is the number
    [z * 2^sc]. *)
Definition amount_is (sc : Z) (e : Expense) (z : Z) : Prop :=
  Number (amount e) = Z2F sc z.

Definition sum_abs (zs : list Z) : Z := fold_right (fun z acc => Z.abs z + acc) 0 zs.

(** ** The server ([server.js]) *)

(** The [expenses] collection: documents keyed by [_id]. *)
Abbreviation Db := (gmap N Expense).

(** What a request body holds at one schema path, as the schema's caster
    sees it: no such key, [null], a value that casts to the path's type, or
    a value that does not (a string that is no number at [amount]). *)
Inductive bodyval (A : Type) : Type :=
  | Missing
  | IsNull
  | Castable (a : A)
  | Uncastable.
Arguments Missing {A}.
Arguments IsNull {A}.
Arguments Castable {A} a.
Arguments Uncastable {A}.

(** The paths of [expenseSchema] (and [_id]) in a request body; Mongoose's
    strict mode drops every other key. *)
Record Body := mkBody {
  b_id : bodyval oid;
  b_userId : bodyval oid;
  b_title : bodyval string;
  b_amount : bodyval float;
  b_type : bodyval string;
  b_category : bodyval string;
  b_date : bodyval Z
}.

(** [{ ...body, userId: uid }]: the later key wins. *)
Definition spread_with_userId (body : Body) (uid : oid) : Body :=
  {| b_id := b_id body; b_userId := Castable uid; b_title := b_title body;
     b_amount := b_amount body; b_type := b_type body;
     b_category := b_category body; b_date := b_date body |}.

Record Request := mkRequest {
  header_Authorization : option string;   (* [req.header('Authorization')] *)
  req_body : Body                         (* [req.body] *)
}.

(** What the process supplies while one request is served: [Date.now()] and
    the ObjectId that is generated for a new document (by the schema's
    default for [_id], or by the driver on the insert). *)
Record Env := mkEnv {
  Date_now : Z;
  new_ObjectId : oid
}.

(** The verified payload of a token ([req.user]). *)
Record Claims := mkClaims {
  id : oid;
  iat : Z;
  exp : Z
}.

(** The errors [jwt.verify] throws. *)
Inductive JwtError : Type :=
  | JsonWebTokenError     (* malformed token, bad signature *)
  | TokenExpiredError
  | NotBeforeError.

(** The errors a rejected [save()] or [findByIdAndDelete()] carries. *)
Inductive MongooseError : Type :=
  | ValidationError       (* a path failed its cast or a required path is empty *)
  | MissingIdError        (* the document's [_id] is [undefined] *)
  | DuplicateKeyError     (* E11000: the [_id] is taken *)
  | CastError.            (* the id of the query is no ObjectId *)

Inductive Json : Type :=
  | JError (error : string)               (* [{ error }] *)
  | JMessage (message : string)           (* [{ message }] *)
  | JExpense (e : Expense)
  | JExpenses (l : list Expense).

Record Response := mkResponse {
  status : Z;
  json : Json
}.

(** How serving a request ends: the handler sends a response, or the
    [async] handler rejects with the error of the Mongoose call it awaits;
    the handlers have no [catch], so they send nothing themselves then. *)
Inductive Outcome : Type :=
  | Responded (r : Response)
  | Rejected (e : MongooseError).

(** The schema's caster on one path; [None] is a cast error. *)
Definition cast {A : Type} (v : bodyval A) : option (jsopt A) :=
  match v with
  | Missing => Some Undefined
  | IsNull => Some Null
  | Castable a => Some (Value a)
  | Uncastable => None
  end.

(** The path casts. *)
Definition castable {A : Type} (v : bodyval A) : bool :=
  match cast v with
  | Some _ => true
  | None => false
  end.

(** Every supplied path of the body casts to its schema type ([userId] is
    overwritten by the handler and does not count). *)
Definition castable_body (b : Body) : bool :=
  castable (b_id b) && castable (b_title b) && castable (b_amount b)
  && castable (b_type b) && castable (b_category b) && castable (b_date b).

(** [default: Date.now] fills a path that is [undefined]. *)
Definition with_default {A : Type} (d : A) (v : jsopt A) : jsopt A :=
  match v with
  | Undefined => Value d
  | _ => v
  end.

(** [required: true]: the path must hold a value. *)
Definition required {A : Type} (v : jsopt A) : bool :=
  match v with
  | Value _ => true
  | _ => false
  end.

(** [new Expense(obj)] followed by the validation [save()] runs first: the
    document, or the validation error. *)
Definition new_Expense (env : Env) (obj : Body) : MongooseError + Expense :=
  match cast (b_id obj), cast (b_userId obj), cast (b_title obj),
        cast (b_amount obj), cast (b_type obj), cast (b_category obj),
        cast (b_date obj) with
  | Some i, Some u, Some t, Some a, Some ty, Some c, Some d =>
      if required u then
        inr {| _id := with_default (new_ObjectId env) i; userId := u;
               title := t; amount := a; type := ty; category := c;
               date := with_default (Date_now env) d |}
      else inl ValidationError
  | _, _, _, _, _, _, _ => inl ValidationError
  end.

(** The document with its [_id] set. *)
Definition with_id (i : oid) (doc : Expense) : Expense :=
  {| _id := Value i; userId := userId doc; title := title doc;
     amount := amount doc; type := type doc; category := category doc;
     date := date doc |}.

(** [doc.save()]: the insert of a validated document.  Mongoose refuses a
    document whose [_id] is [undefined].  When the [_id] is [null] the
    driver gives the copy it inserts a new ObjectId, [fresh], and the
    document that [save()] resolves to keeps its [null]. *)
Definition save (fresh : oid) (doc : Expense) (db : Db)
    : (MongooseError + Expense) * Db :=
  match _id doc with
  | Value i =>
      match db !! i with
      | None => (inr doc, <[i := doc]> db)
      | Some _ => (inl DuplicateKeyError, db)
      end
  | Null =>
      match db !! fresh with
      | None => (inr doc, <[fresh := with_id fresh doc]> db)
      | Some _ => (inl DuplicateKeyError, db)
      end
  | Undefined => (inl MissingIdError, db)
  end.

(** [v === uid] on ObjectIds, the filter of [find({ userId: uid })]. *)
Definition owned_by (uid : oid) (e : Expense) : bool :=
  match userId e with
  | Value u => N.eqb u uid
  | _ => false
  end.

Definition documents (db : Db) : list Expense := (map_to_list db).*2.

(** [Expense.find({ userId: uid })]. *)
Definition find_by_userId (uid : oid) (db : Db) : list Expense :=
  List.filter (owned_by uid) (documents db).

(** The order of dates in a sort: [null] and missing dates come below
    every date. *)
Definition date_leb (a b : jsopt Z) : bool :=
  match a, b with
  | Value x, Value y => x <=? y
  | Value _, _ => false
  | _, _ => true
  end.

(** [a] may stand before [b] under [sort({ date: -1 })]. *)
Definition date_desc (a b : Expense) : Prop := date_leb (date b) (date a) = true.

#[export] Instance date_desc_dec (a b : Expense) : Decision (date_desc a b).
Proof. unfold date_desc. apply _. Defined.

(** [.sort({ date: -1 })]. *)
Definition sort_date_desc (l : list Expense) : list Expense :=
  merge_sort date_desc l.

(** [Expense.findByIdAndDelete(id)] for the string [id] of the path: the
    cast of the id, then the removal. *)
Definition findByIdAndDelete (id : string) (db : Db) : MongooseError + Db :=
  match castObjectId id with
  | Some i => inr (delete i db)
  | None => inl CastError
  end.

Section Server.

(** [jwt.verify(token, secret)] at a given clock time (seconds): the
    payload, or the error thrown. *)
Variable jwt_verify : string -> string -> Z -> JwtError + Claims.

(** [process.env.JWT_SECRET]. *)
Variable env_JWT_SECRET : option string.

Definition JWT_SECRET : string :=
  match env_JWT_SECRET with
  | Some s => if truthy_string s then s else "secret123"
  | None => "secret123"
  end.

(** A protected handler: what runs after [next()]. *)
Definition Handler : Type := Claims -> Db -> Outcome * Db.

Definition authMiddleware (req : Request) (env : Env) (next : Handler)
    (db : Db) : Outcome * Db :=
  match header_Authorization req with
  | None => (Responded {| status := 401; json := JError "Access Denied" |}, db)
  | Some token =>
      if negb (truthy_string token) then
        (Responded {| status := 401; json := JError "Access Denied" |}, db)
      else
        match jwt_verify token JWT_SECRET (Date_now env / 1000) with
        | inr verified => next verified db
        | inl _ => (Responded {| status := 400; json := JError "Invalid Token" |}, db)
        end
  end.

(** [GET /api/expenses]. *)
Definition list_handler : Handler := fun user db =>
  let expenses := sort_date_desc (find_by_userId (id user) db) in
  (Responded {| status := 200; json := JExpenses expenses |}, db).

Definition getExpenses (req : Request) (env : Env) (db : Db) : Outcome * Db :=
  authMiddleware req env list_handler db.

(** [POST /api/expenses]. *)
Definition create_handler (req : Request) (env : Env) : Handler := fun user db =>
  match new_Expense env (spread_with_userId (req_body req) (id user)) with
  | inl err => (Rejected err, db)
  | inr newExpense =>
      match save (new_ObjectId env) newExpense db with
      | (inr saved, db') => (Responded {| status := 200; json := JExpense saved |}, db')
      | (inl err, db') => (Rejected err, db')
      end
  end.

Definition postExpense (req : Request) (env : Env) (db : Db) : Outcome * Db :=
  authMiddleware req env (create_handler req env) db.

(** [DELETE /api/expenses/:id], with [params_id] the [:id] of the path. *)
Definition delete_handler (params_id : string) : Handler := fun _ db =>
  match findByIdAndDelete params_id db with
  | inr db' => (Responded {| status := 200; json := JMessage "Deleted" |}, db')
  | inl err => (Rejected err, db)
  end.

Definition deleteExpense (params_id : string) (req : Request) (env : Env)
    (db : Db) : Outcome * Db :=
  authMiddleware req env (delete_handler params_id) db.

(** The request carries a token that verifies as [user]. *)
Definition authenticated (req : Request) (env : Env) (user : Claims) : Prop :=
  exists token, header_Authorization req = Some token
    /\ truthy_string token = true
    /\ jwt_verify token JWT_SECRET (Date_now env / 1000) = inr user.

End Server.

(** ** The client's form ([handleSubmit] and [realApi.addExpense]) *)

Record FormData := mkFormData {
  form_title : string;
  form_amount : string;
  form_category : string;
  form_type : string
}.

Definition formData_init : FormData :=
  {| form_title := ""; form_amount := ""; form_category := "Food";
     form_type := "expense" |}.

Record AppState := mkAppState {
  expenses : list Expense;
  formData : FormData;
  isFormOpen : bool
}.

(** What [JSON.parse] reads back from the text [JSON.stringify] writes for a
    finite number: the number itself, and [0] for [-0], which is written
    without its sign. *)
Definition json_finite (f : float) : float :=
  if PrimFloat.eqb f 0 then 0%float else f.

(** [JSON.stringify] writes a number that is not finite as [null]. *)
Definition json_number (f : float) : bodyval float :=
  if is_finite f then Castable (json_finite f) else IsNull.

(** [res.json()] read as a transaction: an object without the transaction's
    keys has every property [undefined]. *)
Definition as_expense (j : Json) : Expense :=
  match j with
  | JExpense e => e
  | _ => mkExpense Undefined Undefined Undefined Undefined Undefined Undefined Undefined
  end.

Section Client.

Variable jwt_verify : string -> string -> Z -> JwtError + Claims.
Variable env_JWT_SECRET : option string.

(** [Number(s)] on the text of the amount field. *)
Variable StringToNumber : string -> float.

(** [realApi.getHeaders()]: the token of the saved session, or [''].
    [tracker_token] is the token of [localStorage.tracker_user]. *)
Definition getHeaders (tracker_token : option string) : option string :=
  Some (default "" tracker_token).

(** The body [{ ...formData, amount: Number(formData.amount) }]. *)
Definition addExpense_body (fd : FormData) : Body :=
  {| b_id := Missing; b_userId := Missing;
     b_title := Castable (form_title fd);
     b_amount := json_number (StringToNumber (form_amount fd));
     b_type := Castable (form_type fd);
     b_category := Castable (form_category fd);
     b_date := Missing |}.

(** [handleSubmit]: the form's guard, then the request and the update of
    the local list.  When the server's handler rejects, no transaction
    comes back (there is no response, or one whose body is no JSON), the
    [catch] logs the error and the state stays as it was. *)
Definition handleSubmit (env : Env) (tracker_token : option string)
    (st : AppState) (db : Db) : AppState * Db :=
  let fd := formData st in
  if negb (truthy_string (form_title fd)) || negb (truthy_string (form_amount fd))
  then (st, db)
  else
    let req := {| header_Authorization := getHeaders tracker_token;
                  req_body := addExpense_body fd |} in
    match postExpense jwt_verify env_JWT_SECRET req env db with
    | (Responded r, db') =>
        ({| expenses := as_expense (json r) :: expenses st;
            formData := formData_init;
            isFormOpen := false |}, db')
    | (Rejected _, db') => (st, db')
    end.

End Client.

(** ** Invariant of the reducer on dyadic amounts *)

(** The accumulator holds exact multiples of [2^sc]: income [i],
    withdrawals [w], expenses [e], investments [v], whose magnitudes sum to
    at most [M]. *)
Definition exact_acc (sc : Z) (acc : Stats) (M : Z) : Prop :=
  exists i w e v,
    acc = mkStats (Z2F sc (i + w - e - v)) (Z2F sc i) (Z2F sc e) (Z2F sc v) (Z2F sc w)
    /\ Z.abs i + Z.abs w + Z.abs e + Z.abs v <= M.

(** ** Sample data *)

Definition sample_tx (i : oid) (ty : string) (cat : string) (amt : float) (t : Z) : Expense :=
  {| _id := Value i; userId := Value 7%N; title := Value "entry";
     amount := Value amt; type := Value ty; category := Value cat;
     date := Value t |}.

(** An income of 10, an expense of 0.1 and an expense of 0.2 (the two
    binary64 numbers nearest to 0.1 and 0.2). *)
Definition rounding_sample : list Expense :=
  [ sample_tx 1 "income" "Salary" 10 1793620800000;
    sample_tx 2 "expense" "Food" 0x1.999999999999ap-4 1793620800000;
    sample_tx 3 "expense" "Food" 0x1.999999999999ap-3 1793620800000 ].

Definition integer_sample : list Expense :=
  [ sample_tx 1 "income" "Salary" 2000 1793620800000;
    sample_tx 2 "expense" "Food" 45 1793620800000;
    sample_tx 3 "investment" "Stocks" 300 1793620800000;
    sample_tx 4 "withdrawal" "Savings" 100 1793620800000 ].

(** The scenario of the specification: a coffee of 4.5 and a paycheck of
    2000. *)
Definition scenario_sample : list Expense :=
  [ {| _id := Value 2%N; userId := Value 7%N; title := Value "Paycheck";
       amount := Value 2000%float; type := Value "income";
       category := Value "Salary"; date := Value 1793620900000 |};
    {| _id := Value 1%N; userId := Value 7%N; title := Value "Coffee";
       amount := Value 4.5%float; type := Value "expense";
       category := Value "Food"; date := Value 1793620800000 |} ].

Definition utc : Z -> Z := fun _ => 0.

(** A verifier for the examples: the token ["alice.jwt"] carries user 7 and
    expires at 1793624400; any other token is malformed. *)
Definition sample_verify (token secret : string) (clock : Z) : JwtError + Claims :=
  if String.eqb token "alice.jwt" then
    if clock <? 1793624400
    then inr {| id := 7%N; iat := 1793620800; exp := 1793624400 |}
    else inl TokenExpiredError
  else inl JsonWebTokenError.

Definition sample_env : Env := {| Date_now := 1793620800000; new_ObjectId := 40%N |}.

Definition late_env : Env := {| Date_now := 1793630000000; new_ObjectId := 41%N |}.

Definition empty_body : Body :=
  {| b_id := Missing; b_userId := Missing; b_title := Missing; b_amount := Missing;
     b_type := Missing; b_category := Missing; b_date := Missing |}.

(** A body whose amount is no number, as [{ title: "Tea", amount: "abc" }]. *)
Definition bad_amount_body : Body :=
  {| b_id := Missing; b_userId := Missing; b_title := Castable "Tea";
     b_amount := Uncastable; b_type := Castable "expense";
     b_category := Castable "Food"; b_date := Missing |}.

(** A body that names another user as owner. *)
Definition forged_body : Body :=
  {| b_id := Missing; b_userId := Castable 99%N; b_title := Castable "Coffee";
     b_amount := Castable 4.5%float; b_type := Castable "expense";
     b_category := Castable "Food"; b_date := Missing |}.

(** What the server stores for [forged_body] sent by user 7. *)
Definition forged_stored : Expense :=
  {| _id := Value 40%N; userId := Value 7%N; title := Value "Coffee";
     amount := Value 4.5%float; type := Value "expense";
     category := Value "Food"; date := Value 1793620800000 |}.

Definition sample_request (token : option string) (body : Body) : Request :=
  {| header_Authorization := token; req_body := body |}.

Definition sample_db : Db :=
  <[1%N := sample_tx 1 "income" "Salary" 2000 1793620000000]>
  (<[2%N := sample_tx 2 "expense" "Food" 45 1793620500000]>
  (<[3%N := {| _id := Value 3%N; userId := Value 8%N; title := Value "other";
               amount := Value 12%float; type := Value "expense";
               category := Value "Food"; date := Value 1793620700000 |}]> ∅)).

(** ** The auth routes ([server.js]) *)

(** A document of the [users] collection; [userSchema] requires the three
    strings. *)
Record User := mkUser {
  u_id : oid;
  u_name : string;
  u_email : string;
  u_password : string       (* the bcrypt hash *)
}.

Abbreviation Users := (gmap N User).

(** The body of an auth request as the client's forms send it: every field
    a string, possibly empty ([c_name] is not read by the login route). *)
Record Credentials := mkCredentials {
  c_name : string;
  c_email : string;
  c_password : string
}.

(** The errors a rejected [newUser.save()] carries into the [catch]. *)
Inductive AuthError : Type :=
  | UserValidationError     (* a required path is empty *)
  | UserDuplicateKeyError.  (* E11000 *)

Inductive AuthJson : Type :=
  | AError (error : string)                 (* [{ error }] *)
  | AThrown (e : AuthError)                 (* [{ error: err.message }] *)
  | AMessage (message : string)             (* [{ message }] *)
  | ASession (token : string) (user_id : oid) (name email : string).
                                            (* [{ token, user: { id, name, email } }] *)

Record AuthResponse := mkAuthResponse {
  a_status : Z;
  a_json : AuthJson
}.

Definition users_list (users : Users) : list User := (map_to_list users).*2.

(** [User.findOne({ email })]. *)
Definition findOne_email (email : string) (users : Users) : option User :=
  List.find (fun u => String.eqb (u_email u) email) (users_list users).

(** [required: true] on a string path: the empty string does not pass. *)
Definition required_string (s : string) : bool := truthy_string s.

(** [newUser.save()]: validation, then the insert under the new ObjectId. *)
Definition save_user (u : User) (users : Users) : (AuthError + User) * Users :=
  if required_string (u_name u) && required_string (u_email u)
     && required_string (u_password u)
  then
    match users !! u_id u with
    | None => (inr u, <[u_id u := u]> users)
    | Some _ => (inl UserDuplicateKeyError, users)
    end
  else (inl UserValidationError, users).

Section Auth.

(** [bcrypt.hash(password, rounds)] with the salt it draws, and
    [bcrypt.compare(password, hash)]. *)
Variable bcrypt_hash : string -> Z -> string -> string.
Variable bcrypt_compare : string -> string -> bool.

(** [jwt.sign({ id }, secret, { expiresIn: '1h' })] at a clock time (seconds). *)
Variable jwt_sign : oid -> string -> Z -> string.

Variable env_JWT_SECRET : option string.

(** [POST /api/auth/register]; [salt] is the salt bcrypt draws. *)
Definition register (body : Credentials) (env : Env) (salt : string)
    (users : Users) : AuthResponse * Users :=
  match findOne_email (c_email body) users with
  | Some existingUser =>
      ({| a_status := 400; a_json := AError "User already exists" |}, users)
  | None =>
      let hashedPassword := bcrypt_hash (c_password body) 10 salt in
      let newUser := {| u_id := new_ObjectId env; u_name := c_name body;
                        u_email := c_email body; u_password := hashedPassword |} in
      match save_user newUser users with
      | (inr _, users') =>
          ({| a_status := 201; a_json := AMessage "User registered successfully" |},
           users')
      | (inl err, users') =>
          ({| a_status := 500; a_json := AThrown err |}, users')
      end
  end.

(** [POST /api/auth/login]. *)
Definition login (body : Credentials) (env : Env) (users : Users) : AuthResponse :=
  match findOne_email (c_email body) users with
  | None => {| a_status := 400; a_json := AError "User not found" |}
  | Some user =>
      if bcrypt_compare (c_password body) (u_password user) then
        let token := jwt_sign (u_id user) (JWT_SECRET env_JWT_SECRET)
                       (Date_now env / 1000) in
        {| a_status := 200;
           a_json := ASession token (u_id user) (u_name user) (u_email user) |}
      else {| a_status := 400; a_json := AError "Invalid credentials" |}
  end.

End Auth.

(** No two users share an email, and every user is stored under its id. *)
Definition users_wf (users : Users) : Prop :=
  (forall k u, users !! k = Some u -> u_id u = k)
  /\ (forall j k u v, users !! j = Some u -> users !! k = Some v ->
        u_email u = u_email v -> j = k).

(** ** The client's session and its handlers *)

(** The saved user: [{ ...data.user, token: data.token }]. *)
Record UserData := mkUserData {
  ud_id : oid;
  ud_name : string;
  ud_email : string;
  ud_token : string
}.

(** The [user] state of [App], the [tracker_user] item of [localStorage]
    and the [showProfile] flag. *)
Record Session := mkSession {
  user : option UserData;
  tracker_user : option UserData;
  showProfile : bool
}.

Definition handleLogin (userData : UserData) (s : Session) : Session :=
  {| user := Some userData; tracker_user := Some userData;
     showProfile := showProfile s |}.

Definition handleLogout (s : Session) : Session :=
  {| user := None; tracker_user := None; showProfile := false |}.

(** The effect run on mount: the persisted user, if any, becomes [user]. *)
Definition restore_user (s : Session) : Session :=
  match tracker_user s with
  | Some savedUser =>
      {| user := Some savedUser; tracker_user := tracker_user s;
         showProfile := showProfile s |}
  | None => s
  end.

(** The token [realApi.getHeaders] reads from [localStorage]. *)
Definition tracker_token (s : Session) : option string :=
  ud_token <$> tracker_user s.

(** [res.ok]. *)
Definition res_ok (status : Z) : bool := (200 <=? status) && (status <=? 299).

(** What [alert] shows. *)
Inductive Alert : Type :=
  | AlertText (s : string)
  | AlertMessageOf (e : AuthError).     (* the message of a server-side error *)

(** [new Error(err.error || fallback).message] for the body of a response
    that is not ok. *)
Definition error_alert (j : AuthJson) (fallback : string) : Alert :=
  match j with
  | AError s => if truthy_string s then AlertText s else AlertText fallback
  | AThrown e => AlertMessageOf e
  | _ => AlertText fallback
  end.

(** The state of [AuthScreen]. *)
Record AuthScreenState := mkAuthScreenState {
  isLogin : bool;
  loading : bool;
  auth_form : Credentials
}.

Section AuthClient.

Variable bcrypt_hash : string -> Z -> string -> string.
Variable bcrypt_compare : string -> string -> bool.
Variable jwt_sign : oid -> string -> Z -> string.
Variable env_JWT_SECRET : option string.

(** [AuthScreen]'s [handleSubmit] over [realApi.login] / [realApi.register]:
    the new screen state, the session, what is alerted, and the server's
    users.  The login route answers ok only with a session object. *)
Definition auth_handleSubmit (env : Env) (salt : string)
    (scr : AuthScreenState) (s : Session) (users : Users)
    : AuthScreenState * Session * option Alert * Users :=
  let formData := auth_form scr in
  if isLogin scr then
    let res := login bcrypt_compare jwt_sign env_JWT_SECRET
                 {| c_name := ""; c_email := c_email formData;
                    c_password := c_password formData |} env users in
    let done := {| isLogin := true; loading := false; auth_form := formData |} in
    if res_ok (a_status res) then
      match a_json res with
      | ASession token i name email =>
          (done,
           handleLogin {| ud_id := i; ud_name := name; ud_email := email;
                          ud_token := token |} s,
           None, users)
      | _ => (done, s, None, users)
      end
    else (done, s, Some (error_alert (a_json res) "Login failed"), users)
  else
    let '(res, users') := register bcrypt_hash formData env salt users in
    if res_ok (a_status res) then
      ({| isLogin := true; loading := false; auth_form := formData |}, s,
       Some (AlertText "Account created! Please sign in."), users')
    else
      ({| isLogin := false; loading := false; auth_form := formData |}, s,
       Some (error_alert (a_json res) "Registration failed"), users')
  .

End AuthClient.

(** ** Deleting from the client ([handleDelete] and [realApi.deleteExpense]) *)

(** [e._id !== id] for the id of a listed transaction. *)
Definition other_id (i : oid) (e : Expense) : bool :=
  match _id e with
  | Value j => negb (N.eqb j i)
  | _ => true
  end.

(** An ObjectId is 12 bytes: at most 24 hexadecimal digits. *)
Definition is_ObjectId (i : oid) : bool :=
  Nat.leb (String.length (hex_digits i)) 24.

(** [e._id !== id] for whatever the [_id] of the clicked row is: [undefined]
    and [null] are each equal to themselves only. *)
Definition id_differs (id : jsopt oid) (e : Expense) : bool :=
  match id, _id e with
  | Undefined, Undefined => false
  | Null, Null => false
  | Value i, _ => other_id i e
  | _, _ => true
  end.

Section ClientDelete.

Variable jwt_verify : string -> string -> Z -> JwtError + Claims.
Variable env_JWT_SECRET : option string.

(** What Express does with a request whose [async] handler rejected, which
    depends on its version: Express 5 hands the rejection to its error
    handler, which answers 500 ([true]); Express 4 leaves the request
    unanswered, and the client's [fetch] fails or stays pending
    ([false]). *)
Variable answers_rejection : bool.

(** [handleDelete(id)] for the [_id] of the clicked row; [confirmed] is the
    answer to [window.confirm].  [realApi.deleteExpense] does not look at
    the response it awaits, so the list is filtered after any response, also
    an error; without a response the [await] does not return normally and
    the list stays as it was. *)
Definition handleDelete (confirmed : bool) (id : jsopt oid) (env : Env)
    (token : option string) (st : AppState) (db : Db) : AppState * Db :=
  if negb confirmed then (st, db)
  else
    let req := {| header_Authorization := getHeaders token; req_body :=
                    {| b_id := Missing; b_userId := Missing; b_title := Missing;
                       b_amount := Missing; b_type := Missing;
                       b_category := Missing; b_date := Missing |} |} in
    let dropped := {| expenses := List.filter (id_differs id) (expenses st);
                      formData := formData st;
                      isFormOpen := isFormOpen st |} in
    match deleteExpense jwt_verify env_JWT_SECRET (template_id id) req env db with
    | (Responded _, db') => (dropped, db')
    | (Rejected _, db') => (if answers_rejection then dropped else st, db')
    end.

End ClientDelete.

(** ** How a row of the list shows its amount *)

(** The sign before the amount of a listed transaction. *)
Definition amount_sign (expense : Expense) : string :=
  if strict_eq_string (type expense) "income"
     || strict_eq_string (type expense) "withdrawal"
  then "+" else "-".

(** [getColorClass]. *)
Definition getColorClass (ty : jsopt string) : string :=
  if strict_eq_string ty "income" then "bg-green-100 text-green-600"
  else if strict_eq_string ty "expense" then "bg-red-100 text-red-600"
  else if strict_eq_string ty "investment" then "bg-purple-100 text-purple-600"
  else if strict_eq_string ty "withdrawal" then "bg-orange-100 text-orange-600"
  else "bg-slate-100 text-slate-600".

(** ** Exact sums by type *)

(** The sum of the amounts [zs] of the transactions of [l] whose type is
    [ty]. *)
Fixpoint typed_sum (ty : string) (l : list Expense) (zs : list Z) : Z :=
  match l, zs with
  | t :: l', z :: zs' =>
      (if strict_eq_string (type t) ty then z else 0) + typed_sum ty l' zs'
  | _, _ => 0
  end.

(** Stand-ins for bcrypt and [jwt.sign] in the examples. *)
Definition sample_hash (password : string) (rounds : Z) (salt : string) : string :=
  "$2a$" ++ password.

Definition sample_compare (password hash : string) : bool :=
  String.eqb hash ("$2a$" ++ password).

Definition sample_sign (i : oid) (secret : string) (clock : Z) : string := "alice.jwt".

Definition alice : User :=
  {| u_id := 7%N; u_name := "Alice"; u_email := "a@x.com"; u_password := "$2a$p" |}.

Definition sample_users : Users := <[7%N := alice]> ∅.

Definition bob_credentials : Credentials :=
  {| c_name := "Bob"; c_email := "b@x.com"; c_password := "q" |}.

Definition alice_credentials : Credentials :=
  {| c_name := ""; c_email := "a@x.com"; c_password := "p" |}.

Definition alice_data : UserData :=
  {| ud_id := 7%N; ud_name := "Alice"; ud_email := "a@x.com"; ud_token := "alice.jwt" |}.

Definition signed_out : Session :=
  {| user := None; tracker_user := None; showProfile := false |}.

(** The state [App] starts from when the page is loaded again: [user] is
    [null] and the profile is closed; [localStorage] is kept. *)
Definition reload (s : Session) : Session :=
  {| user := None; tracker_user := tracker_user s; showProfile := false |}.

(** ** What a successful create stores, and how the client mirrors the server *)

(** The stored value of a path that cast. *)
Definition to_jsopt {A : Type} (v : bodyval A) : jsopt A :=
  match v with
  | Castable a => Value a
  | IsNull => Null
  | _ => Undefined
  end.

(** The document stored for a castable body without [_id], sent by [uid]. *)
Definition stored_doc (env : Env) (uid : oid) (body : Body) : Expense :=
  {| _id := Value (new_ObjectId env); userId := Value uid;
     title := to_jsopt (b_title body); amount := to_jsopt (b_amount body);
     type := to_jsopt (b_type body); category := to_jsopt (b_category body);
     date := with_default (Date_now env) (to_jsopt (b_date body)) |}.

(** The row the client gets from a response that is no transaction. *)
Definition blank_row : Expense :=
  mkExpense Undefined Undefined Undefined Undefined Undefined Undefined Undefined.

(** Every document carries the id it is stored under. *)
Definition db_wf (db : Db) : Prop :=
  forall k e, db !! k = Some e -> _id e = Value k.

(** The client's list holds the transactions the server has for [uid]. *)
Definition in_sync (uid : oid) (st : AppState) (db : Db) : Prop :=
  expenses st ≡ₚ find_by_userId uid db.

(** A filled form, and a client that shows the two transactions of user 7. *)
Definition tea_form : FormData :=
  {| form_title := "Tea"; form_amount := "12.5"; form_category := "Food";
     form_type := "expense" |}.

Definition tea_state : AppState :=
  {| expenses := [ sample_tx 2 "expense" "Food" 45 1793620500000;
                   sample_tx 1 "income" "Salary" 2000 1793620000000 ];
     formData := tea_form; isFormOpen := true |}.

Definition sample_number (s : string) : float := 12.5%float.

(** A token that is missing or that verification refuses: the gate answers
    with an error body and the handler does not run. *)
Definition token_refused (jwt_verify : string -> string -> Z -> JwtError + Claims)
    (env_JWT_SECRET : option string) (env : Env) (token : option string) : Prop :=
  match token with
  | None => True
  | Some t =>
      t = "" \/ exists err,
        jwt_verify t (JWT_SECRET env_JWT_SECRET) (Date_now env / 1000) = inl err
  end.

Definition alice_claims : Claims :=
  {| id := 7%N; iat := 1793620800; exp := 1793624400 |}.

(** A verifier that knows two users: ["alice.jwt"] is user 7, ["bob.jwt"]
    user 8. *)
Definition two_user_verify (token secret : string) (clock : Z) : JwtError + Claims :=
  if String.eqb token "alice.jwt" then inr alice_claims
  else if String.eqb token "bob.jwt"
       then inr {| id := 8%N; iat := 1793620800; exp := 1793624400 |}
       else inl JsonWebTokenError.

(** A transaction stored without a date and one stored without an amount. *)
Definition undated_row : Expense :=
  {| _id := Value 5%N; userId := Value 7%N; title := Value "no date";
     amount := Value 3%float; type := Value "expense"; category := Value "Food";
     date := Undefined |}.

Definition amountless_row : Expense :=
  {| _id := Value 6%N; userId := Value 7%N; title := Value "no amount";
     amount := Undefined; type := Value "expense"; category := Value "Food";
     date := Value 1793620800000 |}.

(** ** The mock API ([mockApi]): transactions in [localStorage] *)

(** [JSON.parse(JSON.stringify(v))] on a number property: a number that is
    not finite comes back as [null], and [-0] as [0]. *)
Definition JSON_number (v : jsopt float) : jsopt float :=
  match v with
  | Value f => if is_finite f then Value (json_finite f) else Null
  | _ => v
  end.

(** [JSON.parse(JSON.stringify(e))] on a transaction: strings, ids and
    [null] come back as they are and a missing property stays missing. *)
Definition JSON_roundtrip (e : Expense) : Expense :=
  {| _id := _id e; userId := userId e; title := title e;
     amount := JSON_number (amount e); type := type e; category := category e;
     date := date e |}.

(** The [expenses] item of [localStorage]: [None] when it was never set,
    else the list that parsing it gives. *)
Definition mock_fetchExpenses (item : option (list Expense)) : list Expense :=
  default [] item.

(** [mockApi.addExpense]: [now_id] is [Date.now()], which becomes the [_id]
    (its decimal string, kept here as the number), and [now_date] the time
    of [new Date()].  Returns the new row and the item written. *)
Definition mock_addExpense (now_id : N) (now_date : Z) (expense : Expense)
    (item : option (list Expense)) : Expense * option (list Expense) :=
  let current := mock_fetchExpenses item in
  let newExpense :=
    {| _id := Value now_id; userId := userId expense; title := title expense;
       amount := amount expense; type := type expense;
       category := category expense; date := Value now_date |} in
  let updated := newExpense :: current in
  (newExpense, Some (JSON_roundtrip <$> updated)).

(** [mockApi.deleteExpense]. *)
Definition mock_deleteExpense (i : oid) (item : option (list Expense))
    : option (list Expense) :=
  let current := mock_fetchExpenses item in
  let updated := List.filter (other_id i) current in
  Some (JSON_roundtrip <$> updated).

(** A row as parsing JSON gives it. *)
Definition json_stable (e : Expense) : Prop := JSON_roundtrip e = e.

(** ** Loading the list ([loadData] and [realApi.fetchExpenses]) *)

Section ClientLoad.

Variable jwt_verify : string -> string -> Z -> JwtError + Claims.
Variable env_JWT_SECRET : option string.


End ClientLoad.

(** * Proofs *)

(** ** Sums of dyadic numbers in binary64 are exact below [2^53] *)

Lemma digits2_pos_size p : digits2_pos p = Pos.size p.
Proof. induction p; simpl; congruence. Qed.

Lemma digits2_shl_pos k c :
  Zpos (digits2_pos (shl_pos k c)) = Zpos (digits2_pos c) + Z.of_nat k.
Proof.
  induction k as [|k IH]; simpl; [lia|].
  change (Nat.iter k xO c) with (shl_pos k c). lia.
Qed.

Lemma Zpos_shl_pos k c : Zpos (shl_pos k c) = Zpos c * 2 ^ Z.of_nat k.
Proof.
  induction k as [|k IH]; [simpl; lia|].
  rewrite Nat2Z.inj_succ, Z.pow_succ_r by lia.
  change (shl_pos (S k) c) with (xO (shl_pos k c)).
  rewrite Pos2Z.inj_xO, IH. ring.
Qed.

Lemma shl_pos_add a b c : shl_pos a (shl_pos b c) = shl_pos (a + b) c.
Proof. unfold shl_pos. symmetry. apply Nat.iter_add. Qed.

(** The binary iteration of the specification is plain iteration. *)
Lemma iter_pos_nat {A} (f : A -> A) p x :
  SpecFloat.iter_pos f p x = Nat.iter (Pos.to_nat p) f x.
Proof.
  revert x. induction p as [p IH|p IH|]; intros x; cbn [SpecFloat.iter_pos].
  - rewrite !IH, Pos2Nat.inj_xI.
    replace (S (2 * Pos.to_nat p))%nat with (Pos.to_nat p + (Pos.to_nat p + 1))%nat by lia.
    rewrite !Nat.iter_add. reflexivity.
  - rewrite !IH, Pos2Nat.inj_xO.
    replace (2 * Pos.to_nat p)%nat with (Pos.to_nat p + Pos.to_nat p)%nat by lia.
    rewrite Nat.iter_add. reflexivity.
  - reflexivity.
Qed.

(** Shifting out zero bits loses nothing: round and sticky bits stay clear. *)
Lemma shr_1_shl_pos n k c :
  (n <= k)%nat ->
  Nat.iter n shr_1 (Build_shr_record (Zpos (shl_pos k c)) false false)
  = Build_shr_record (Zpos (shl_pos (k - n) c)) false false.
Proof.
  revert k. induction n as [|n IH]; intros k Hk.
  - simpl. rewrite Nat.sub_0_r. reflexivity.
  - destruct k as [|k]; [lia|].
    rewrite Nat.iter_succ_r. simpl shl_pos at 1.
    change (Nat.iter k xO c) with (shl_pos k c). simpl shr_1.
    rewrite IH by lia. reflexivity.
Qed.

Lemma shl_align_shl_pos m e e' :
  e' <= e -> shl_align m e e' = (shl_pos (Z.to_nat (e - e')) m, e').
Proof.
  intros H. unfold shl_align.
  destruct (e' - e) as [|d|d] eqn:E; try lia.
  - assert (e = e') as -> by lia. rewrite Z.sub_diag. reflexivity.
  - rewrite Pos2Nat.inj_iter. unfold shl_pos, Nat.iter.
    replace (Z.to_nat (e - e')) with (Pos.to_nat d) by lia. reflexivity.
Qed.

Lemma digits2_pos_bound c : Zpos c < 2 ^ 53 -> Zpos (digits2_pos c) <= 53.
Proof.
  intros H. rewrite digits2_pos_size.
  pose proof (Pos.size_le c) as Hle.
  apply Pos2Z.pos_le_pos in Hle. rewrite Pos2Z.inj_pow in Hle.
  change (Z.pos c~0) with (2 * Z.pos c) in Hle.
  destruct (Z_le_gt_dec (Zpos (Pos.size c)) 53) as [|Hgt]; [assumption|].
  assert (2 ^ 54 <= 2 ^ Zpos (Pos.size c)) by (apply Z.pow_le_mono_r; lia).
  change (2 ^ 54) with (2 * 2 ^ 53) in *. lia.
Qed.

(** Rounding a mantissa [c * 2^k] whose significant part [c] has at most
    53 bits only renormalises it. *)
Lemma binary_round_exact s c k e :
  Zpos (digits2_pos c) <= 53 ->
  -1074 <= Zpos (digits2_pos c) + Z.of_nat k + e - 53 <= 971 ->
  binary_round prec emax s (shl_pos k c) e
  = S754_finite s (shl_pos (Z.to_nat (53 - Zpos (digits2_pos c))) c)
      (Zpos (digits2_pos c) + Z.of_nat k + e - 53).
Proof.
  intros Hd Hr.
  set (d := Zpos (digits2_pos c)) in *.
  unfold binary_round. rewrite digits2_shl_pos. fold d.
  assert (Hf : forall x, -1074 <= x - 53 -> fexp prec emax x = x - 53).
  { intros x Hx. unfold fexp, SpecFloat.emin, prec, emax. lia. }
  rewrite Hf by lia.
  destruct (Z_le_gt_dec (d + Z.of_nat k + e - 53) e) as [Hle|Hgt].
  - rewrite shl_align_shl_pos by lia.
    rewrite shl_pos_add.
    replace (Z.to_nat (e - (d + Z.of_nat k + e - 53)) + k)%nat with (Z.to_nat (53 - d)) by lia.
    unfold binary_round_aux, shr_fexp. cbn [Zdigits2 shr_record_of_loc].
    rewrite digits2_shl_pos. fold d. rewrite Hf by lia.
    replace (d + Z.of_nat (Z.to_nat (53 - d)) + (d + Z.of_nat k + e - 53) - 53
             - (d + Z.of_nat k + e - 53)) with 0 by lia.
    cbn [shr shr_m loc_of_shr_record round_nearest_even Zdigits2 shr_record_of_loc].
    rewrite digits2_shl_pos. fold d. rewrite Hf by lia.
    replace (d + Z.of_nat (Z.to_nat (53 - d)) + (d + Z.of_nat k + e - 53) - 53
             - (d + Z.of_nat k + e - 53)) with 0 by lia.
    cbn [shr shr_m].
    destruct (Z.leb_spec (d + Z.of_nat k + e - 53) (emax - prec)) as [|Hlt]; [reflexivity|].
    unfold emax, prec in Hlt. lia.
  - assert (Hal : shl_align (shl_pos k c) e (d + Z.of_nat k + e - 53) = (shl_pos k c, e)).
    { unfold shl_align. destruct (d + Z.of_nat k + e - 53 - e) eqn:E; try reflexivity; lia. }
    rewrite Hal.
    unfold binary_round_aux, shr_fexp. cbn [Zdigits2 shr_record_of_loc].
    rewrite digits2_shl_pos. fold d. rewrite Hf by lia.
    destruct (d + Z.of_nat k + e - 53 - e) as [|n|n] eqn:E; try lia.
    cbn [shr]. rewrite iter_pos_nat, shr_1_shl_pos by lia.
    replace (k - Pos.to_nat n)%nat with (Z.to_nat (53 - d)) by lia.
    cbn [shr_m loc_of_shr_record round_nearest_even Zdigits2 shr_record_of_loc].
    rewrite digits2_shl_pos. fold d. rewrite Hf by lia.
    replace (d + Z.of_nat (Z.to_nat (53 - d)) + (e + Z.pos n) - 53 - (e + Z.pos n))
      with 0 by lia.
    cbn [shr shr_m].
    replace (e + Z.pos n) with (d + Z.of_nat k + e - 53) by lia.
    destruct (Z.leb_spec (d + Z.of_nat k + e - 53) (emax - prec)) as [|Hlt]; [reflexivity|].
    unfold emax, prec in Hlt. lia.
Qed.

Lemma cond_Zopp_mul s x y : cond_Zopp s x * y = cond_Zopp s (x * y).
Proof. destruct s; simpl; [apply Z.mul_opp_l | reflexivity]. Qed.

Lemma Z_sign_magnitude z :
  z = 0 \/ exists s c, z = cond_Zopp s (Zpos c).
Proof.
  destruct z as [|c|c]; [left; reflexivity| |]; right.
  - exists false, c. reflexivity.
  - exists true, c. reflexivity.
Qed.

Section Dyadic.

(** The common exponent of the numbers: all are multiples of [2^sc]. *)
Variable sc : Z.
Hypothesis Hsc : scale_ok sc.

Lemma Z2SF_canonSF z : Z.abs z < 2 ^ 53 -> Z2SF sc z = canonSF sc z.
Proof.
  intros Hz. unfold Z2SF, binary_normalize. unfold scale_ok in Hsc.
  destruct z as [|c|c]; [reflexivity| |];
    (pose proof (digits2_pos_bound c ltac:(lia)) as Hd;
     change c with (shl_pos 0 c) at 1;
     rewrite binary_round_exact by (simpl Z.of_nat; lia);
     simpl canonSF; f_equal; simpl Z.of_nat; lia).
Qed.

Lemma valid_canonSF z : Z.abs z < 2 ^ 53 -> valid_binary (canonSF sc z) = true.
Proof.
  intros Hz. unfold scale_ok in Hsc.
  destruct z as [|c|c]; [reflexivity| |];
    (pose proof (digits2_pos_bound c ltac:(lia)) as Hd;
     simpl; unfold bounded, canonical_mantissa;
     rewrite digits2_shl_pos;
     unfold fexp, SpecFloat.emin, prec, emax;
     apply andb_true_iff; split; [apply Z.eqb_eq | apply Z.leb_le]; lia).
Qed.

(** Normalising [z * 2^k] at exponent [e] with [k + e = sc] gives the
    representation of [z * 2^sc]. *)
Lemma binary_normalize_shl z k e :
  Z.abs z < 2 ^ 53 -> Z.of_nat k + e = sc ->
  binary_normalize prec emax (z * 2 ^ Z.of_nat k) e false = canonSF sc z.
Proof.
  intros Hz Hk. unfold scale_ok in Hsc.
  destruct z as [|c|c].
  - reflexivity.
  - pose proof (digits2_pos_bound c ltac:(lia)) as Hd.
    rewrite <- Zpos_shl_pos. cbn [binary_normalize].
    rewrite binary_round_exact by lia. simpl canonSF. f_equal. lia.
  - pose proof (digits2_pos_bound c ltac:(lia)) as Hd.
    change (Z.neg c) with (- Z.pos c) at 1.
    rewrite Z.mul_opp_l, <- Zpos_shl_pos.
    change (- Z.pos (shl_pos k c)) with (Z.neg (shl_pos k c)). cbn [binary_normalize].
    rewrite binary_round_exact by lia. simpl canonSF. f_equal. lia.
Qed.

(** Sign and magnitude of a non-zero number, as [canonSF] stores them. *)
Lemma canonSF_finite s c :
  canonSF sc (cond_Zopp s (Z.pos c))
  = S754_finite s (shl_pos (Z.to_nat (53 - Zpos (digits2_pos c))) c)
      (Zpos (digits2_pos c) - 53 + sc).
Proof. destruct s; reflexivity. Qed.

(** The mantissa of [c * 2^sc] brought to a smaller exponent [e]. *)
Lemma aligned_mantissa c e :
  Zpos (digits2_pos c) <= 53 -> e <= Zpos (digits2_pos c) - 53 + sc ->
  Zpos (fst (shl_align (shl_pos (Z.to_nat (53 - Zpos (digits2_pos c))) c)
               (Zpos (digits2_pos c) - 53 + sc) e))
  = Zpos c * 2 ^ Z.of_nat (Z.to_nat (sc - e)).
Proof.
  intros Hd He. rewrite shl_align_shl_pos by lia. cbn [fst].
  rewrite shl_pos_add, Zpos_shl_pos. do 3 f_equal. lia.
Qed.

Lemma SFadd_finite sa ca sb cb :
  Zpos ca < 2 ^ 53 -> Zpos cb < 2 ^ 53 ->
  Z.abs (cond_Zopp sa (Zpos ca) + cond_Zopp sb (Zpos cb)) < 2 ^ 53 ->
  SFadd prec emax (canonSF sc (cond_Zopp sa (Zpos ca))) (canonSF sc (cond_Zopp sb (Zpos cb)))
  = canonSF sc (cond_Zopp sa (Zpos ca) + cond_Zopp sb (Zpos cb)).
Proof.
  intros Ha Hb Hab.
  pose proof (digits2_pos_bound ca Ha) as Hda.
  pose proof (digits2_pos_bound cb Hb) as Hdb.
  rewrite !canonSF_finite. cbn [SFadd].
  set (ez := Z.min _ _).
  rewrite !aligned_mantissa by (unfold ez; lia).
  rewrite <- !cond_Zopp_mul, <- Z.mul_add_distr_r.
  apply binary_normalize_shl; [assumption | unfold ez; lia].
Qed.

Lemma SFsub_finite sa ca sb cb :
  Zpos ca < 2 ^ 53 -> Zpos cb < 2 ^ 53 ->
  Z.abs (cond_Zopp sa (Zpos ca) - cond_Zopp sb (Zpos cb)) < 2 ^ 53 ->
  SFsub prec emax (canonSF sc (cond_Zopp sa (Zpos ca))) (canonSF sc (cond_Zopp sb (Zpos cb)))
  = canonSF sc (cond_Zopp sa (Zpos ca) - cond_Zopp sb (Zpos cb)).
Proof.
  intros Ha Hb Hab.
  pose proof (digits2_pos_bound ca Ha) as Hda.
  pose proof (digits2_pos_bound cb Hb) as Hdb.
  rewrite !canonSF_finite. cbn [SFsub].
  set (ez := Z.min _ _).
  rewrite !aligned_mantissa by (unfold ez; lia).
  rewrite <- !cond_Zopp_mul, <- Z.mul_sub_distr_r.
  apply binary_normalize_shl; [assumption | unfold ez; lia].
Qed.

Lemma SFadd_canonSF a b :
  Z.abs a < 2 ^ 53 -> Z.abs b < 2 ^ 53 -> Z.abs (a + b) < 2 ^ 53 ->
  SFadd prec emax (canonSF sc a) (canonSF sc b) = canonSF sc (a + b).
Proof.
  intros Ha Hb Hab.
  destruct (Z_sign_magnitude a) as [->|(sa & ca & ->)].
  - destruct b; reflexivity.
  - destruct (Z_sign_magnitude b) as [->|(sb & cb & ->)].
    + rewrite Z.add_0_r. destruct sa; reflexivity.
    + apply SFadd_finite; [destruct sa | destruct sb | assumption]; simpl in *; lia.
Qed.

Lemma SFsub_canonSF a b :
  Z.abs a < 2 ^ 53 -> Z.abs b < 2 ^ 53 -> Z.abs (a - b) < 2 ^ 53 ->
  SFsub prec emax (canonSF sc a) (canonSF sc b) = canonSF sc (a - b).
Proof.
  intros Ha Hb Hab.
  destruct (Z_sign_magnitude a) as [->|(sa & ca & ->)].
  - destruct b; reflexivity.
  - destruct (Z_sign_magnitude b) as [->|(sb & cb & ->)].
    + rewrite Z.sub_0_r. destruct sa; reflexivity.
    + apply SFsub_finite; [destruct sa | destruct sb | assumption]; simpl in *; lia.
Qed.

Lemma Prim2SF_Z2F z : Z.abs z < 2 ^ 53 -> Prim2SF (Z2F sc z) = canonSF sc z.
Proof.
  intros Hz. unfold Z2F. rewrite Z2SF_canonSF by assumption.
  apply Prim2SF_SF2Prim, valid_canonSF, Hz.
Qed.

(** Float addition and subtraction of two such numbers do not round. *)
Lemma Z2F_add a b :
  Z.abs a < 2 ^ 53 -> Z.abs b < 2 ^ 53 -> Z.abs (a + b) < 2 ^ 53 ->
  (Z2F sc a + Z2F sc b)%float = Z2F sc (a + b).
Proof.
  intros Ha Hb Hab. apply Prim2SF_inj.
  rewrite add_spec, !Prim2SF_Z2F by assumption.
  apply SFadd_canonSF; assumption.
Qed.

Lemma Z2F_sub a b :
  Z.abs a < 2 ^ 53 -> Z.abs b < 2 ^ 53 -> Z.abs (a - b) < 2 ^ 53 ->
  (Z2F sc a - Z2F sc b)%float = Z2F sc (a - b).
Proof.
  intros Ha Hb Hab. apply Prim2SF_inj.
  rewrite sub_spec, !Prim2SF_Z2F by assumption.
  apply SFsub_canonSF; assumption.
Qed.

Lemma Z2F_eqb_refl z : Z.abs z < 2 ^ 53 -> PrimFloat.eqb (Z2F sc z) (Z2F sc z) = true.
Proof.
  intros Hz. rewrite FloatAxioms.eqb_spec, Prim2SF_Z2F by assumption.
  destruct z as [|c|c]; [reflexivity| |];
    simpl; unfold SFeqb, SFcompare; rewrite Z.compare_refl, Pos.compare_cont_refl;
    reflexivity.
Qed.

(** *** The reducer on such amounts *)

Lemma exact_acc_init : exact_acc sc stats_init 0.
Proof. exists 0, 0, 0, 0. split; [reflexivity | simpl; lia]. Qed.

Lemma stats_step_exact acc M t z :
  exact_acc sc acc M -> amount_is sc t z -> M + Z.abs z < 2 ^ 53 ->
  exact_acc sc (stats_step acc t) (M + Z.abs z).
Proof.
  intros (i & w & e & v & -> & HM) Hz Hb.
  unfold amount_is in Hz. unfold stats_step. cbv zeta. rewrite !Hz.
  cbn [totalBalance totalIncome totalExpense totalInvested totalWithdrawn].
  destruct (strict_eq_string (type t) "income");
    [|destruct (strict_eq_string (type t) "expense");
      [|destruct (strict_eq_string (type t) "investment");
        [|destruct (strict_eq_string (type t) "withdrawal")]]].
  - exists (i + z), w, e, v. rewrite !Z2F_add by lia.
    split; [do 2 f_equal; lia | lia].
  - exists i, w, (e + z), v. rewrite Z2F_add by lia. rewrite Z2F_sub by lia.
    split; [do 2 f_equal; lia | lia].
  - exists i, w, e, (v + z). rewrite Z2F_add by lia. rewrite Z2F_sub by lia.
    split; [do 2 f_equal; lia | lia].
  - exists i, (w + z), e, v. rewrite !Z2F_add by lia.
    split; [do 2 f_equal; lia | lia].
  - exists i, w, e, v. split; [reflexivity | lia].
Qed.

Lemma sum_abs_nonneg zs : 0 <= sum_abs zs.
Proof. induction zs; simpl; lia. Qed.

Lemma sum_abs_cons z zs : sum_abs (z :: zs) = Z.abs z + sum_abs zs.
Proof. reflexivity. Qed.

Lemma fold_stats_exact l zs :
  Forall2 (amount_is sc) l zs ->
  forall acc M, exact_acc sc acc M -> M + sum_abs zs < 2 ^ 53 ->
  exact_acc sc (fold_left stats_step l acc) (M + sum_abs zs).
Proof.
  induction 1 as [|t z l zs Ht _ IH]; intros acc M Hacc Hb.
  - simpl. rewrite Z.add_0_r. assumption.
  - rewrite sum_abs_cons in *. pose proof (sum_abs_nonneg zs).
    rewrite Z.add_assoc. cbn [fold_left]. apply IH; [|lia].
    apply stats_step_exact; [assumption | assumption | lia].
Qed.

Lemma filter_amounts (p : Expense -> bool) l zs :
  Forall2 (amount_is sc) l zs ->
  exists zs', Forall2 (amount_is sc) (List.filter p l) zs' /\ sum_abs zs' <= sum_abs zs.
Proof.
  induction 1 as [|t z l zs Ht _ (zs' & IH & Hle)]; cbn [List.filter].
  - exists []. split; [constructor | lia].
  - rewrite sum_abs_cons. destruct (p t).
    + exists (z :: zs'). rewrite sum_abs_cons. split; [constructor; assumption | lia].
    + exists zs'. split; [assumption | lia].
Qed.

(** On an exact accumulator the formula is exact as well. *)
Lemma exact_acc_balance acc M :
  exact_acc sc acc M -> M < 2 ^ 53 ->
  strict_eq_number (totalBalance acc) (balance_formula acc) = true.
Proof.
  intros (i & w & e & v & -> & HM) Hb.
  unfold balance_formula, strict_eq_number.
  cbn [totalBalance totalIncome totalExpense totalInvested totalWithdrawn].
  rewrite Z2F_add, !Z2F_sub by lia.
  apply Z2F_eqb_refl. lia.
Qed.

End Dyadic.

(** ** The aggregation engine *)

Lemma strict_eq_string_true v s : strict_eq_string v s = true <-> v = Value s.
Proof.
  destruct v as [| |x]; simpl; try (split; [discriminate | congruence]).
  rewrite String.eqb_eq. split; congruence.
Qed.

Lemma strict_eq_string_false v s : v <> Value s -> strict_eq_string v s = false.
Proof.
  intros Hne. destruct (strict_eq_string v s) eqn:E; [|reflexivity].
  apply strict_eq_string_true in E. contradiction.
Qed.

(** A transaction of an unknown type falls to the [default] branch. *)
Lemma stats_step_default acc t :
  type t <> Value "income" -> type t <> Value "expense" ->
  type t <> Value "investment" -> type t <> Value "withdrawal" ->
  stats_step acc t = acc.
Proof.
  intros H1 H2 H3 H4. unfold stats_step.
  rewrite !strict_eq_string_false by assumption. reflexivity.
Qed.

Lemma inTimeRange_all LocalTZA now item : inTimeRange LocalTZA now "all" item = true.
Proof. reflexivity. Qed.

(** ** Claims on the aggregation engine *)

(** C8: the time-range filter with range [all] returns the list unchanged,
    whatever the dates of the transactions and the current time. *)
Theorem timeFilter_all_identity LocalTZA now expenses :
  timeFilteredExpenses LocalTZA now "all" expenses = expenses.
Proof.
  unfold timeFilteredExpenses.
  induction expenses as [|item rest IH]; [reflexivity|].
  cbn [List.filter]. rewrite inTimeRange_all, IH. reflexivity.
Qed.

(** C9: over the empty transaction list every total is 0 (and the list
    shown is empty), for every time range and category selector. *)
Theorem stats_empty LocalTZA now timeRange filterCategory :
  d_stats (derive LocalTZA now timeRange filterCategory [])
  = {| totalBalance := 0; totalIncome := 0; totalExpense := 0;
       totalInvested := 0; totalWithdrawn := 0 |}
  /\ d_filteredList (derive LocalTZA now timeRange filterCategory []) = [].
Proof.
  split; [reflexivity|].
  unfold derive, filteredList. cbn [d_filteredList timeFilteredExpenses List.filter].
  destruct (String.eqb filterCategory "All"); reflexivity.
Qed.

(** C10: a transaction whose type is none of income, expense, investment
    and withdrawal, added anywhere in the input list, leaves the five
    totals unchanged. *)
Theorem unknown_type_contributes_nothing LocalTZA now timeRange filterCategory
    (t : Expense) (before after : list Expense) :
  type t <> Value "income" -> type t <> Value "expense" ->
  type t <> Value "investment" -> type t <> Value "withdrawal" ->
  d_stats (derive LocalTZA now timeRange filterCategory (before ++ t :: after))
  = d_stats (derive LocalTZA now timeRange filterCategory (before ++ after)).
Proof.
  intros H1 H2 H3 H4. unfold derive, stats, timeFilteredExpenses. cbn [d_stats].
  rewrite !List.filter_app, !fold_left_app. cbn [List.filter].
  destruct (inTimeRange LocalTZA (Some now) timeRange t); [|reflexivity].
  cbn [fold_left]. rewrite stats_step_default by assumption. reflexivity.
Qed.

Lemma unknown_type_contributes_nothing_witness :
  d_stats (derive utc 1793620800000 "monthly" "All"
             ([sample_tx 1 "income" "Salary" 10 1793620800000]
              ++ sample_tx 9 "gift" "Food" 5 1793620800000
              :: [sample_tx 2 "expense" "Food" 3 1793620800000]))
  = d_stats (derive utc 1793620800000 "monthly" "All"
               ([sample_tx 1 "income" "Salary" 10 1793620800000]
                ++ [sample_tx 2 "expense" "Food" 3 1793620800000])).
Proof.
  apply (unknown_type_contributes_nothing utc 1793620800000 "monthly" "All"
           (sample_tx 9 "gift" "Food" 5 1793620800000));
    simpl; discriminate.
Defined.

(** C3: the totals are those of the time-filtered list, the same for every
    category selector; selector ["All"] shows the time-filtered list, any
    other selector shows exactly its transactions of that category. *)
Theorem category_filter_spares_totals LocalTZA now timeRange
    (filterCategory : string) (expenses : list Expense) :
  let tfe := timeFilteredExpenses LocalTZA now timeRange expenses in
  (forall other : string,
      d_stats (derive LocalTZA now timeRange filterCategory expenses)
      = d_stats (derive LocalTZA now timeRange other expenses))
  /\ d_stats (derive LocalTZA now timeRange filterCategory expenses) = stats tfe
  /\ d_filteredList (derive LocalTZA now timeRange "All" expenses) = tfe
  /\ (filterCategory <> "All" ->
      d_filteredList (derive LocalTZA now timeRange filterCategory expenses)
      = List.filter (fun e => strict_eq_string (category e) filterCategory) tfe
      /\ forall e, In e (d_filteredList (derive LocalTZA now timeRange filterCategory expenses))
                   <-> In e tfe /\ category e = Value filterCategory).
Proof.
  intros tfe. split; [reflexivity|]. split; [reflexivity|]. split; [reflexivity|].
  intros Hne. apply String.eqb_neq in Hne.
  assert (Hl : d_filteredList (derive LocalTZA now timeRange filterCategory expenses)
               = List.filter (fun e => strict_eq_string (category e) filterCategory) tfe).
  { unfold derive, filteredList. cbn [d_filteredList]. rewrite Hne. reflexivity. }
  split; [exact Hl|].
  intros e. rewrite Hl, List.filter_In, strict_eq_string_true. reflexivity.
Qed.

Lemma category_filter_spares_totals_witness :
  d_filteredList (derive utc 1793620800000 "all" "Food" integer_sample)
  = [sample_tx 2 "expense" "Food" 45 1793620800000]
  /\ d_stats (derive utc 1793620800000 "all" "Food" integer_sample)
     = d_stats (derive utc 1793620800000 "all" "All" integer_sample).
Proof.
  pose proof (category_filter_spares_totals utc 1793620800000 "all" "Food" integer_sample)
    as (Hstats & _ & _ & Hlist).
  split.
  - destruct Hlist as [Hl _]; [discriminate|]. rewrite Hl. reflexivity.
  - apply Hstats.
Defined.

(** C2, as stated, fails: with an income of 10 and expenses of 0.1 and 0.2
    the running balance is 9.700000000000001 while
    [totalIncome + totalWithdrawn - totalExpense - totalInvested] is 9.7. *)
Lemma balance_identity_rounding_counterexample :
  let s := d_stats (derive utc 1793620800000 "all" "All" rounding_sample) in
  totalBalance s = 0x1.3666666666667p+3%float
  /\ balance_formula s = 0x1.3666666666666p+3%float
  /\ strict_eq_number (totalBalance s) (balance_formula s) = false.
Proof. vm_compute. repeat split. Qed.

(** C2, amended: when every amount is a multiple of one power of two
    [2^sc] with [-1000 <= sc <= 900] (whole numbers for [sc = 0], halves
    for [sc = -1], ...; within that range no sum overflows or falls among
    the subnormal numbers) and the magnitudes of the amounts sum to less
    than [2^53 * 2^sc], no addition rounds and, for every time range,
    [totalBalance == totalIncome + totalWithdrawn - totalExpense -
    totalInvested]. *)
Theorem balance_identity_dyadic_amounts LocalTZA now timeRange filterCategory
    (expenses : list Expense) (sc : Z) (zs : list Z) :
  scale_ok sc ->
  Forall2 (amount_is sc) expenses zs ->
  sum_abs zs < 2 ^ 53 ->
  let s := d_stats (derive LocalTZA now timeRange filterCategory expenses) in
  strict_eq_number (totalBalance s) (balance_formula s) = true.
Proof.
  intros Hsc Hamt Hsum s. subst s. unfold derive, stats, timeFilteredExpenses. cbn [d_stats].
  destruct (filter_amounts sc (inTimeRange LocalTZA (Some now) timeRange) _ _ Hamt)
    as (zs' & Hamt' & Hle).
  apply (exact_acc_balance sc Hsc _ (0 + sum_abs zs')); [|lia].
  apply fold_stats_exact; [assumption | assumption | apply exact_acc_init | lia].
Qed.

Lemma balance_identity_dyadic_amounts_witness :
  let s := d_stats (derive utc 1793620900000 "all" "All" scenario_sample) in
  strict_eq_number (totalBalance s) (balance_formula s) = true.
Proof.
  apply (balance_identity_dyadic_amounts utc 1793620900000 "all" "All"
           scenario_sample (-1) [4000; 9]).
  - unfold scale_ok. lia.
  - repeat constructor; vm_compute; reflexivity.
  - vm_compute. reflexivity.
Defined.

(** The scenario of the specification: the balance is 1995.5. *)
Example scenario_balance :
  totalBalance (d_stats (derive utc 1793620900000 "all" "All" scenario_sample))
  = 1995.5%float.
Proof. vm_compute. reflexivity. Qed.

(** ** The request gate and the transaction API *)

Section ServerProofs.

Variable jwt_verify : string -> string -> Z -> JwtError + Claims.
Variable env_JWT_SECRET : option string.

(** With a token that verifies, the gate hands over to the handler. *)
Lemma authMiddleware_next req env user (next : Handler) db :
  authenticated jwt_verify env_JWT_SECRET req env user ->
  authMiddleware jwt_verify env_JWT_SECRET req env next db = next user db.
Proof.
  intros (token & Hh & Ht & Hv). unfold authMiddleware.
  rewrite Hh, Ht, Hv. reflexivity.
Qed.

(** Without a token the gate answers 401 itself. *)
Lemma authMiddleware_missing req env (next : Handler) db :
  header_Authorization req = None \/ header_Authorization req = Some "" ->
  authMiddleware jwt_verify env_JWT_SECRET req env next db
  = (Responded {| status := 401; json := JError "Access Denied" |}, db).
Proof.
  intros [Hh|Hh]; unfold authMiddleware; rewrite Hh; reflexivity.
Qed.

(** A token that [jwt.verify] refuses is answered 400 by the [catch]. *)
Lemma authMiddleware_invalid req env token err (next : Handler) db :
  header_Authorization req = Some token -> truthy_string token = true ->
  jwt_verify token (JWT_SECRET env_JWT_SECRET) (Date_now env / 1000) = inl err ->
  authMiddleware jwt_verify env_JWT_SECRET req env next db
  = (Responded {| status := 400; json := JError "Invalid Token" |}, db).
Proof.
  intros Hh Ht Hv. unfold authMiddleware. rewrite Hh, Ht, Hv. reflexivity.
Qed.

End ServerProofs.

Lemma owned_by_true uid e : owned_by uid e = true <-> userId e = Value uid.
Proof.
  unfold owned_by. destruct (userId e) as [| |u]; try (split; [discriminate | congruence]).
  rewrite N.eqb_eq. split; congruence.
Qed.

Lemma In_documents (db : Db) e : In e (documents db) <-> exists k, db !! k = Some e.
Proof.
  unfold documents. rewrite <- list_elem_of_In, list_elem_of_fmap. split.
  - intros ([k x] & -> & Hin). exists k. apply elem_of_map_to_list, Hin.
  - intros (k & Hk). exists (k, e). split; [reflexivity | apply elem_of_map_to_list, Hk].
Qed.

Lemma date_leb_total a b : date_leb a b = true \/ date_leb b a = true.
Proof.
  destruct a as [| |x], b as [| |y]; simpl; auto.
  destruct (Z.leb_spec x y); [left; reflexivity | right; apply Z.leb_le; lia].
Qed.

Lemma date_leb_trans a b c :
  date_leb a b = true -> date_leb b c = true -> date_leb a c = true.
Proof.
  destruct a as [| |x], b as [| |y], c as [| |z]; simpl; try congruence.
  rewrite !Z.leb_le. lia.
Qed.

#[export] Instance date_desc_total : Total date_desc.
Proof. intros a b. unfold date_desc. apply date_leb_total. Qed.

#[export] Instance date_desc_trans : Transitive date_desc.
Proof. intros a b c Hab Hbc. unfold date_desc in *. eapply date_leb_trans; eassumption. Qed.

(** C1: for an authenticated caller, [GET /api/expenses] answers with the
    stored transactions whose owner is the caller, each once, most recent
    first; no transaction of another owner is in the answer, and the
    collection is not changed. *)
Theorem listTransactions_owned_sorted jwt_verify env_JWT_SECRET req env user (db : Db) :
  authenticated jwt_verify env_JWT_SECRET req env user ->
  exists l,
    getExpenses jwt_verify env_JWT_SECRET req env db
    = (Responded {| status := 200; json := JExpenses l |}, db)
    /\ l ≡ₚ List.filter (owned_by (id user)) (documents db)
    /\ StronglySorted date_desc l
    /\ (forall e, In e l <->
          (exists k, db !! k = Some e) /\ userId e = Value (id user)).
Proof.
  intros Hauth. exists (sort_date_desc (find_by_userId (id user) db)).
  split; [|split; [|split]].
  - unfold getExpenses. rewrite (authMiddleware_next _ _ _ _ _ _ _ Hauth). reflexivity.
  - apply merge_sort_Permutation.
  - apply StronglySorted_merge_sort; apply _.
  - intros e. unfold sort_date_desc, find_by_userId.
    rewrite <- list_elem_of_In, merge_sort_Permutation, list_elem_of_In.
    rewrite List.filter_In, In_documents, owned_by_true. reflexivity.
Qed.

Lemma sample_authenticated body :
  authenticated sample_verify None (sample_request (Some "alice.jwt") body) sample_env
    {| id := 7%N; iat := 1793620800; exp := 1793624400 |}.
Proof. exists "alice.jwt". repeat split. Defined.

Lemma listTransactions_owned_sorted_witness :
  exists l,
    getExpenses sample_verify None (sample_request (Some "alice.jwt") empty_body)
      sample_env sample_db
    = (Responded {| status := 200; json := JExpenses l |}, sample_db)
    /\ l ≡ₚ List.filter (owned_by 7%N) (documents sample_db)
    /\ StronglySorted date_desc l
    /\ (forall e, In e l <->
          (exists k, sample_db !! k = Some e) /\ userId e = Value 7%N).
Proof.
  apply (listTransactions_owned_sorted sample_verify None
           (sample_request (Some "alice.jwt") empty_body) sample_env
           {| id := 7%N; iat := 1793620800; exp := 1793624400 |} sample_db).
  apply sample_authenticated.
Defined.

(** The listing of the sample collection for user 7: the two transactions
    of that user, the later one first. *)
Example getExpenses_sample :
  fst (getExpenses sample_verify None (sample_request (Some "alice.jwt") empty_body)
         sample_env sample_db)
  = Responded {| status := 200;
                 json := JExpenses [ sample_tx 2 "expense" "Food" 45 1793620500000;
                                     sample_tx 1 "income" "Salary" 2000 1793620000000 ] |}.
Proof. vm_compute. reflexivity. Qed.

(** C5, as stated, fails: a request with a malformed token, and one with an
    expired token, are answered with status 400, not 401. *)
Lemma invalid_token_status_counterexample :
  getExpenses sample_verify None (sample_request (Some "garbage") empty_body)
    sample_env sample_db
  = (Responded {| status := 400; json := JError "Invalid Token" |}, sample_db)
  /\ getExpenses sample_verify None (sample_request (Some "alice.jwt") empty_body)
       late_env sample_db
     = (Responded {| status := 400; json := JError "Invalid Token" |}, sample_db).
Proof. split; reflexivity. Qed.

(** C5, amended: a request without a token is answered 401 and one whose
    token fails verification (malformed, bad signature, expired) is
    answered 400, each with an error body; the protected handler is not
    run, whatever it is, and the collection is unchanged. *)
Theorem auth_gate_rejects jwt_verify env_JWT_SECRET req env (next : Handler) (db : Db) :
  (header_Authorization req = None \/ header_Authorization req = Some "" ->
   authMiddleware jwt_verify env_JWT_SECRET req env next db
   = (Responded {| status := 401; json := JError "Access Denied" |}, db))
  /\ (forall token err,
        header_Authorization req = Some token -> truthy_string token = true ->
        jwt_verify token (JWT_SECRET env_JWT_SECRET) (Date_now env / 1000) = inl err ->
        authMiddleware jwt_verify env_JWT_SECRET req env next db
        = (Responded {| status := 400; json := JError "Invalid Token" |}, db)).
Proof.
  split.
  - apply authMiddleware_missing.
  - intros token err. apply authMiddleware_invalid.
Qed.

Lemma auth_gate_rejects_witness :
  deleteExpense sample_verify None "000000000000000000000001"
    (sample_request None empty_body) sample_env sample_db
  = (Responded {| status := 401; json := JError "Access Denied" |}, sample_db)
  /\ postExpense sample_verify None (sample_request (Some "alice.jwt") forged_body)
       late_env sample_db
     = (Responded {| status := 400; json := JError "Invalid Token" |}, sample_db).
Proof.
  split.
  - apply (auth_gate_rejects sample_verify None (sample_request None empty_body)
             sample_env (delete_handler "000000000000000000000001") sample_db).
    left. reflexivity.
  - apply (auth_gate_rejects sample_verify None
             (sample_request (Some "alice.jwt") forged_body) late_env
             (create_handler (sample_request (Some "alice.jwt") forged_body) late_env)
             sample_db) with (token := "alice.jwt") (err := TokenExpiredError);
      reflexivity.
Defined.

(** The handler of [DELETE /api/expenses/:id] on a path segment that casts
    to an ObjectId, and on one that does not. *)
Lemma delete_handler_cast params_id i user (db : Db) :
  castObjectId params_id = Some i ->
  delete_handler params_id user db
  = (Responded {| status := 200; json := JMessage "Deleted" |}, delete i db).
Proof.
  intros H. unfold delete_handler, findByIdAndDelete. rewrite H. reflexivity.
Qed.

Lemma delete_handler_uncastable params_id user (db : Db) :
  castObjectId params_id = None ->
  delete_handler params_id user db = (Rejected CastError, db).
Proof.
  intros H. unfold delete_handler, findByIdAndDelete. rewrite H. reflexivity.
Qed.

(** C6, as stated, fails: for an authenticated caller and the id ["abc"],
    which is no ObjectId, [findByIdAndDelete] throws its CastError and the
    handler sends no success message. *)
Lemma delete_malformed_id_counterexample :
  deleteExpense sample_verify None "abc" (sample_request (Some "alice.jwt") empty_body)
    sample_env sample_db
  = (Rejected CastError, sample_db)
  /\ fst (deleteExpense sample_verify None "abc"
            (sample_request (Some "alice.jwt") empty_body) sample_env sample_db)
     <> Responded {| status := 200; json := JMessage "Deleted" |}.
Proof. split; [reflexivity | discriminate]. Qed.

(** C6, amended: for an authenticated caller and every id that is an
    ObjectId (a path segment of 24 hexadecimal digits),
    [DELETE /api/expenses/:id] answers 200 with the message, also when no
    transaction has that id; afterwards the collection is the prior one
    without that id, and a second deletion of the same id changes nothing
    more. *)
Theorem deleteTransaction_succeeds_for_ObjectIds jwt_verify env_JWT_SECRET
    (params_id : string) (i : oid) req env user (db : Db) :
  authenticated jwt_verify env_JWT_SECRET req env user ->
  castObjectId params_id = Some i ->
  let after := snd (deleteExpense jwt_verify env_JWT_SECRET params_id req env db) in
  fst (deleteExpense jwt_verify env_JWT_SECRET params_id req env db)
  = Responded {| status := 200; json := JMessage "Deleted" |}
  /\ after !! i = None
  /\ (forall k, k <> i -> after !! k = db !! k)
  /\ (db !! i = None -> after = db)
  /\ (forall req' env' user',
        authenticated jwt_verify env_JWT_SECRET req' env' user' ->
        deleteExpense jwt_verify env_JWT_SECRET params_id req' env' after
        = (Responded {| status := 200; json := JMessage "Deleted" |}, after)).
Proof.
  intros Hauth Hcast after. subst after. unfold deleteExpense.
  rewrite (authMiddleware_next _ _ _ _ _ _ _ Hauth).
  rewrite (delete_handler_cast params_id i user db Hcast). cbn [fst snd].
  split; [reflexivity|]. split; [apply lookup_delete_eq|].
  split; [intros k Hk; apply lookup_delete_ne; congruence|].
  split; [apply delete_id|].
  intros req' env' user' Hauth'.
  rewrite (authMiddleware_next _ _ _ _ _ _ _ Hauth').
  rewrite (delete_handler_cast params_id i user' _ Hcast).
  rewrite delete_delete_eq. reflexivity.
Qed.

Lemma deleteTransaction_succeeds_for_ObjectIds_witness :
  fst (deleteExpense sample_verify None "00000000000000000000004D"
         (sample_request (Some "alice.jwt") empty_body) sample_env sample_db)
  = Responded {| status := 200; json := JMessage "Deleted" |}
  /\ snd (deleteExpense sample_verify None "00000000000000000000004D"
            (sample_request (Some "alice.jwt") empty_body) sample_env sample_db)
     = sample_db.
Proof.
  pose proof (deleteTransaction_succeeds_for_ObjectIds sample_verify None
                "00000000000000000000004D" 77%N
                (sample_request (Some "alice.jwt") empty_body) sample_env _ sample_db
                (sample_authenticated empty_body) eq_refl) as (Hres & _ & _ & Hsame & _).
  split; [exact Hres | apply Hsame; reflexivity].
Defined.

(** The handler of [POST /api/expenses] on a body whose paths all cast:
    the document it builds and tries to insert. *)
Lemma create_handler_castable req env user (db : Db) :
  castable_body (req_body req) = true ->
  exists i t a ty c d,
    cast (b_id (req_body req)) = Some i
    /\ cast (b_title (req_body req)) = Some t
    /\ cast (b_amount (req_body req)) = Some a
    /\ cast (b_type (req_body req)) = Some ty
    /\ cast (b_category (req_body req)) = Some c
    /\ cast (b_date (req_body req)) = Some d
    /\ new_Expense env (spread_with_userId (req_body req) (id user))
       = inr {| _id := with_default (new_ObjectId env) i; userId := Value (id user);
                title := t; amount := a; type := ty; category := c;
                date := with_default (Date_now env) d |}.
Proof.
  unfold castable_body, castable, new_Expense, spread_with_userId.
  cbn [b_id b_userId b_title b_amount b_type b_category b_date cast required].
  destruct (cast (b_id (req_body req))) as [i|],
           (cast (b_title (req_body req))) as [t|],
           (cast (b_amount (req_body req))) as [a|],
           (cast (b_type (req_body req))) as [ty|],
           (cast (b_category (req_body req))) as [c|],
           (cast (b_date (req_body req))) as [d|];
    cbn; try discriminate.
  intros _. exists i, t, a, ty, c, d. repeat split.
Qed.

Lemma create_handler_uncastable req env user (db : Db) :
  castable_body (req_body req) = false ->
  new_Expense env (spread_with_userId (req_body req) (id user)) = inl ValidationError.
Proof.
  unfold castable_body, castable, new_Expense, spread_with_userId.
  cbn [b_id b_userId b_title b_amount b_type b_category b_date cast required].
  destruct (cast (b_id (req_body req))) as [i|],
           (cast (b_title (req_body req))) as [t|],
           (cast (b_amount (req_body req))) as [a|],
           (cast (b_type (req_body req))) as [ty|],
           (cast (b_category (req_body req))) as [c|],
           (cast (b_date (req_body req))) as [d|];
    cbn; try discriminate; reflexivity.
Qed.

Lemma with_id_same i doc : _id doc = Value i -> with_id i doc = doc.
Proof. destruct doc. cbn. intros ->. reflexivity. Qed.

(** What [save()] does: it stores the document under its own [_id], or
    under the new ObjectId when its [_id] is [null], and resolves to the
    document; or it rejects and stores nothing. *)
Lemma save_outcome fresh doc (db : Db) :
  (exists i, (_id doc = Value i \/ _id doc = Null /\ i = fresh)
             /\ db !! i = None
             /\ save fresh doc db = (inr doc, <[i := with_id i doc]> db))
  \/ (exists err, err <> ValidationError /\ save fresh doc db = (inl err, db)).
Proof.
  unfold save. destruct (_id doc) as [| |i] eqn:Hid.
  - right. exists MissingIdError. split; [discriminate | reflexivity].
  - destruct (db !! fresh) eqn:Hi.
    + right. exists DuplicateKeyError. split; [discriminate | reflexivity].
    + left. exists fresh. split; [right; split; reflexivity|].
      split; [assumption | reflexivity].
  - destruct (db !! i) eqn:Hi.
    + right. exists DuplicateKeyError. split; [discriminate | reflexivity].
    + left. exists i. split; [left; reflexivity|]. split; [assumption|].
      rewrite (with_id_same i doc Hid). reflexivity.
Qed.

(** C7: for an authenticated caller and every request body, also one that
    names an owner itself, the transaction that [POST /api/expenses] sends
    back and the one it stores have the caller as owner: the collection
    afterwards is the prior one with one new document, whose owner is the
    caller; every other document is as before.  A request that fails
    stores nothing. *)
Theorem createTransaction_owner_is_caller jwt_verify env_JWT_SECRET req env user (db : Db) :
  authenticated jwt_verify env_JWT_SECRET req env user ->
  (forall r db',
      postExpense jwt_verify env_JWT_SECRET req env db = (Responded r, db') ->
      exists i saved,
        r = {| status := 200; json := JExpense saved |}
        /\ userId saved = Value (id user)
        /\ (_id saved = Value i \/ _id saved = Null)
        /\ db !! i = None
        /\ db' = <[i := with_id i saved]> db
        /\ (forall k stored, db' !! k = Some stored ->
              db !! k = Some stored
              \/ (k = i /\ _id stored = Value i /\ userId stored = Value (id user))))
  /\ (forall err db',
        postExpense jwt_verify env_JWT_SECRET req env db = (Rejected err, db') ->
        db' = db).
Proof.
  intros Hauth. unfold postExpense.
  rewrite (authMiddleware_next _ _ _ _ _ _ _ Hauth). unfold create_handler.
  destruct (castable_body (req_body req)) eqn:Hc.
  - destruct (create_handler_castable req env user db Hc)
      as (i & t & a & ty & c & d & _ & _ & _ & _ & _ & _ & ->).
    match goal with |- context [save _ ?doc db] =>
      destruct (save_outcome (new_ObjectId env) doc db)
        as [(k & Hk & Hfree & ->)|(e & _ & ->)]
    end.
    + split; [|discriminate].
      intros r db' [= <- <-]. exists k. eexists. split; [reflexivity|].
      split; [reflexivity|]. split; [destruct Hk as [Hk|[Hk _]]; [left|right]; exact Hk|].
      split; [exact Hfree|]. split; [reflexivity|].
      intros j stored. rewrite lookup_insert. case_decide as Hj.
      * intros [= <-]. right. subst j. repeat split.
      * intros Hs. left. exact Hs.
    + split; [discriminate|]. intros err db' [= _ <-]. reflexivity.
  - rewrite (create_handler_uncastable req env user db Hc).
    split; [discriminate|]. intros err db' [= _ <-]. reflexivity.
Qed.

Lemma createTransaction_owner_is_caller_witness :
  exists i saved,
    {| status := 200; json := JExpense forged_stored |}
    = {| status := 200; json := JExpense saved |}
    /\ userId saved = Value 7%N
    /\ (_id saved = Value i \/ _id saved = Null)
    /\ sample_db !! i = None
    /\ <[40%N := forged_stored]> sample_db = <[i := with_id i saved]> sample_db
    /\ (forall k stored, (<[40%N := forged_stored]> sample_db) !! k = Some stored ->
          sample_db !! k = Some stored
          \/ (k = i /\ _id stored = Value i /\ userId stored = Value 7%N)).
Proof.
  apply (proj1 (createTransaction_owner_is_caller sample_verify None
                  (sample_request (Some "alice.jwt") forged_body) sample_env _ sample_db
                  (sample_authenticated forged_body))).
  reflexivity.
Defined.

(** A body that carries [_id: null] and names another owner: the answer
    keeps the [null], and the document is stored under the new ObjectId
    with the caller as owner. *)
Example postExpense_null_id :
  let body := {| b_id := IsNull; b_userId := Castable 99%N; b_title := Castable "Coffee";
                 b_amount := Castable 4.5%float; b_type := Castable "expense";
                 b_category := Castable "Food"; b_date := Missing |} in
  let answered := {| _id := Null; userId := Value 7%N; title := Value "Coffee";
                     amount := Value 4.5%float; type := Value "expense";
                     category := Value "Food"; date := Value 1793620800000 |} in
  postExpense sample_verify None (sample_request (Some "alice.jwt") body)
    sample_env sample_db
  = (Responded {| status := 200; json := JExpense answered |},
     <[40%N := forged_stored]> sample_db).
Proof. reflexivity. Qed.

(** C4: the code at the failing input.  An authenticated request whose
    body has neither title nor amount is not refused: it is answered 200
    and a record without title and amount is stored. *)
Theorem missing_title_amount_stored :
  let stored :=
    {| _id := Value 40%N; userId := Value 7%N; title := Undefined;
       amount := Undefined; type := Undefined; category := Undefined;
       date := Value 1793620800000 |} in
  postExpense sample_verify None (sample_request (Some "alice.jwt") empty_body)
    sample_env sample_db
  = (Responded {| status := 200; json := JExpense stored |}, <[40%N := stored]> sample_db)
  /\ sample_db !! 40%N = None
  /\ (<[40%N := stored]> sample_db) !! 40%N = Some stored.
Proof. repeat split. Qed.

(** * Further properties of the code *)

(** ** The auth routes *)

Lemma In_users_list (users : Users) u :
  In u (users_list users) <-> exists k, users !! k = Some u.
Proof.
  unfold users_list. rewrite <- list_elem_of_In, list_elem_of_fmap. split.
  - intros ([k x] & -> & Hin). exists k. apply elem_of_map_to_list, Hin.
  - intros (k & Hk). exists (k, u). split; [reflexivity | apply elem_of_map_to_list, Hk].
Qed.

Lemma findOne_email_Some email (users : Users) u :
  findOne_email email users = Some u ->
  (exists k, users !! k = Some u) /\ u_email u = email.
Proof.
  unfold findOne_email. intros H. apply List.find_some in H as [Hin He].
  split; [apply In_users_list, Hin | apply String.eqb_eq, He].
Qed.

Lemma findOne_email_None email (users : Users) :
  findOne_email email users = None <->
  forall k u, users !! k = Some u -> u_email u <> email.
Proof.
  unfold findOne_email. split.
  - intros H k u Hk He.
    pose proof (List.find_none _ _ H u (proj2 (In_users_list users u) (ex_intro _ k Hk))) as Hf.
    cbv beta in Hf. apply String.eqb_neq in Hf. contradiction.
  - intros H. destruct (List.find _ _) as [u|] eqn:Hf; [|reflexivity].
    apply List.find_some in Hf as [Hin He].
    apply In_users_list in Hin as (k & Hk). apply String.eqb_eq in He.
    destruct (H k u Hk He).
Qed.

(** Where emails are unique, [findOne] returns the user of that email. *)
Lemma findOne_email_wf email (users : Users) k u :
  users_wf users -> users !! k = Some u -> u_email u = email ->
  findOne_email email users = Some u.
Proof.
  intros [_ Huniq] Hk He.
  destruct (findOne_email email users) as [v|] eqn:Hf.
  - apply findOne_email_Some in Hf as [(j & Hj) Hv].
    assert (j = k) as -> by (eapply Huniq; [exact Hj | exact Hk | congruence]).
    congruence.
  - destruct (proj1 (findOne_email_None email users) Hf k u Hk He).
Qed.

Lemma truthy_string_true s : truthy_string s = true <-> s <> "".
Proof.
  unfold truthy_string. rewrite negb_true_iff, String.eqb_neq. reflexivity.
Qed.

Section AuthProofs.

Variable bcrypt_hash : string -> Z -> string -> string.
Variable bcrypt_compare : string -> string -> bool.
Variable jwt_sign : oid -> string -> Z -> string.
Variable env_JWT_SECRET : option string.

(** What [register] does in each case. *)
Lemma register_cases body env salt (users : Users) :
  let newUser := {| u_id := new_ObjectId env; u_name := c_name body;
                    u_email := c_email body;
                    u_password := bcrypt_hash (c_password body) 10 salt |} in
  (register bcrypt_hash body env salt users
   = ({| a_status := 201; a_json := AMessage "User registered successfully" |},
      <[new_ObjectId env := newUser]> users)
   /\ findOne_email (c_email body) users = None
   /\ users !! new_ObjectId env = None
   /\ c_name body <> "" /\ c_email body <> ""
   /\ bcrypt_hash (c_password body) 10 salt <> "")
  \/ (a_status (fst (register bcrypt_hash body env salt users)) <> 201
      /\ snd (register bcrypt_hash body env salt users) = users).
Proof.
  intros newUser. unfold register.
  destruct (findOne_email (c_email body) users) as [v|] eqn:Hf;
    [right; split; [discriminate | reflexivity]|].
  fold newUser. unfold save_user, required_string.
  cbn [u_id u_name u_email u_password newUser].
  destruct (truthy_string (c_name body)) eqn:Hn;
    [|right; split; [discriminate | reflexivity]].
  destruct (truthy_string (c_email body)) eqn:He;
    [|right; split; [discriminate | reflexivity]].
  destruct (truthy_string (bcrypt_hash (c_password body) 10 salt)) eqn:Hp;
    [|right; split; [discriminate | reflexivity]].
  cbn [andb].
  destruct (users !! new_ObjectId env) eqn:Hk;
    [right; split; [discriminate | reflexivity]|].
  left. rewrite <- !truthy_string_true. repeat split; assumption.
Qed.

End AuthProofs.

(** X1: [register] changes the users only when it answers 201, and then it
    adds exactly one user, under an id that was free, with a non-empty name,
    an email no stored user had, and the bcrypt hash in place of the
    password; with any other answer the users are as before. *)
Theorem register_effect bcrypt_hash body env salt (users : Users) :
  let res := fst (register bcrypt_hash body env salt users) in
  let users' := snd (register bcrypt_hash body env salt users) in
  (a_status res = 201 ->
     users !! new_ObjectId env = None
     /\ (forall k u, users !! k = Some u -> u_email u <> c_email body)
     /\ c_name body <> "" /\ c_email body <> ""
     /\ users' = <[new_ObjectId env :=
                    {| u_id := new_ObjectId env; u_name := c_name body;
                       u_email := c_email body;
                       u_password := bcrypt_hash (c_password body) 10 salt |}]> users)
  /\ (a_status res <> 201 -> users' = users).
Proof.
  intros res users'. subst res users'.
  destruct (register_cases bcrypt_hash body env salt users)
    as [(-> & Hf & Hk & Hn & He & _)|[Hs ->]]; cbn [fst snd a_status].
  - split; [|intros H; destruct (H eq_refl)].
    intros _. rewrite findOne_email_None in Hf. repeat split; assumption.
  - split; [intros H; destruct (Hs H) | reflexivity].
Qed.

Lemma register_effect_witness :
  snd (register sample_hash bob_credentials sample_env "salt" sample_users)
  = <[40%N := {| u_id := 40%N; u_name := "Bob"; u_email := "b@x.com";
                 u_password := "$2a$q" |}]> sample_users.
Proof.
  apply (register_effect sample_hash bob_credentials sample_env "salt" sample_users).
  reflexivity.
Defined.

(** X2: registering an email that a stored user already has is answered
    400 "User already exists" and stores nothing. *)
Theorem register_duplicate_email bcrypt_hash body env salt (users : Users) k u :
  users !! k = Some u -> u_email u = c_email body ->
  register bcrypt_hash body env salt users
  = ({| a_status := 400; a_json := AError "User already exists" |}, users).
Proof.
  intros Hk He. unfold register.
  destruct (findOne_email (c_email body) users) as [v|] eqn:Hf; [reflexivity|].
  destruct (proj1 (findOne_email_None _ _) Hf k u Hk He).
Qed.

Lemma register_duplicate_email_witness :
  register sample_hash {| c_name := "Eve"; c_email := "a@x.com"; c_password := "z" |}
    sample_env "salt" sample_users
  = ({| a_status := 400; a_json := AError "User already exists" |}, sample_users).
Proof.
  apply (register_duplicate_email sample_hash _ sample_env "salt" sample_users 7%N alice);
    reflexivity.
Defined.

(** X3: [register] keeps the users well formed: every user stored under its
    own id and no two users with the same email. *)
Theorem register_keeps_users_wf bcrypt_hash body env salt (users : Users) :
  users_wf users ->
  users_wf (snd (register bcrypt_hash body env salt users)).
Proof.
  intros [Hid Huniq].
  destruct (register_cases bcrypt_hash body env salt users)
    as [(-> & Hf & Hk & _)|[_ ->]]; cbn [snd]; [|split; assumption].
  rewrite findOne_email_None in Hf. split.
  - intros k u. rewrite lookup_insert. case_decide as Hd.
    + intros [= <-]. exact Hd.
    + apply Hid.
  - intros j k u v. rewrite !lookup_insert.
    case_decide as Hj; case_decide as Hk'.
    + intros _ _ _. congruence.
    + intros [= <-] Hv He. cbn [u_email] in He. destruct (Hf k v Hv). congruence.
    + intros Hu [= <-] He. cbn [u_email] in He. destruct (Hf j u Hu He).
    + apply Huniq.
Qed.

Lemma sample_users_wf : users_wf sample_users.
Proof.
  split.
  - intros k u. unfold sample_users. rewrite lookup_insert. case_decide as Hd.
    + intros [= <-]. exact Hd.
    + rewrite lookup_empty. discriminate.
  - intros j k u v. unfold sample_users. rewrite !lookup_insert.
    case_decide; case_decide; rewrite ?lookup_empty; try discriminate.
    intros _ _ _. congruence.
Defined.

Lemma register_keeps_users_wf_witness :
  users_wf (snd (register sample_hash bob_credentials sample_env "salt" sample_users)).
Proof.
  apply (register_keeps_users_wf sample_hash bob_credentials sample_env "salt" sample_users).
  apply sample_users_wf.
Defined.

Section LoginProofs.

Variable bcrypt_compare : string -> string -> bool.
Variable jwt_sign : oid -> string -> Z -> string.
Variable env_JWT_SECRET : option string.

Lemma login_not_found body env (users : Users) :
  (forall k u, users !! k = Some u -> u_email u <> c_email body) ->
  login bcrypt_compare jwt_sign env_JWT_SECRET body env users
  = {| a_status := 400; a_json := AError "User not found" |}.
Proof.
  intros H. unfold login. apply findOne_email_None in H. rewrite H. reflexivity.
Qed.

Lemma login_found body env (users : Users) k u :
  users_wf users -> users !! k = Some u -> u_email u = c_email body ->
  login bcrypt_compare jwt_sign env_JWT_SECRET body env users
  = if bcrypt_compare (c_password body) (u_password u)
    then {| a_status := 200;
            a_json := ASession (jwt_sign (u_id u) (JWT_SECRET env_JWT_SECRET)
                                  (Date_now env / 1000))
                        (u_id u) (u_name u) (u_email u) |}
    else {| a_status := 400; a_json := AError "Invalid credentials" |}.
Proof.
  intros Hwf Hk He. unfold login.
  rewrite (findOne_email_wf _ _ _ _ Hwf Hk He). reflexivity.
Qed.

(** The answers of the login route: 200 carries a session, 400 an error. *)
Lemma login_answers body env (users : Users) :
  (exists token i name email,
      login bcrypt_compare jwt_sign env_JWT_SECRET body env users
      = {| a_status := 200; a_json := ASession token i name email |})
  \/ (exists msg,
      login bcrypt_compare jwt_sign env_JWT_SECRET body env users
      = {| a_status := 400; a_json := AError msg |} /\ msg <> "").
Proof.
  unfold login. destruct (findOne_email (c_email body) users) as [u|].
  - destruct (bcrypt_compare (c_password body) (u_password u)).
    + left. eauto.
    + right. eexists. split; [reflexivity | discriminate].
  - right. eexists. split; [reflexivity | discriminate].
Qed.

End LoginProofs.

(** The user found by email right after it was stored. *)
Lemma findOne_email_insert (users : Users) u :
  (forall k v, users !! k = Some v -> u_email v <> u_email u) ->
  findOne_email (u_email u) (<[u_id u := u]> users) = Some u.
Proof.
  intros Hfresh.
  destruct (findOne_email (u_email u) (<[u_id u := u]> users)) as [v|] eqn:Hf.
  - apply findOne_email_Some in Hf as [(k & Hk) Hv].
    rewrite lookup_insert in Hk. case_decide; [congruence|].
    destruct (Hfresh k v Hk Hv).
  - destruct (proj1 (findOne_email_None _ _) Hf (u_id u) u); [|reflexivity].
    apply lookup_insert_eq.
Qed.

(** X4: a registration that succeeds can be followed by a login with the
    same email and password: the login answers 200 with a token signed for
    the new user's id and the user's id, name and email.  The hypotheses are
    the conditions of a successful registration and that bcrypt's compare
    accepts the hash it made. *)
Theorem register_then_login bcrypt_hash bcrypt_compare jwt_sign env_JWT_SECRET
    body env salt env' (users : Users) :
  (forall k u, users !! k = Some u -> u_email u <> c_email body) ->
  users !! new_ObjectId env = None ->
  c_name body <> "" -> c_email body <> "" ->
  bcrypt_hash (c_password body) 10 salt <> "" ->
  bcrypt_compare (c_password body) (bcrypt_hash (c_password body) 10 salt) = true ->
  a_status (fst (register bcrypt_hash body env salt users)) = 201
  /\ login bcrypt_compare jwt_sign env_JWT_SECRET body env'
       (snd (register bcrypt_hash body env salt users))
     = {| a_status := 200;
          a_json := ASession (jwt_sign (new_ObjectId env) (JWT_SECRET env_JWT_SECRET)
                                (Date_now env' / 1000))
                      (new_ObjectId env) (c_name body) (c_email body) |}.
Proof.
  intros Hfresh Hk Hn He Hp Hcmp.
  assert (Hreg : register bcrypt_hash body env salt users
                 = ({| a_status := 201; a_json := AMessage "User registered successfully" |},
                    <[new_ObjectId env :=
                       {| u_id := new_ObjectId env; u_name := c_name body;
                          u_email := c_email body;
                          u_password := bcrypt_hash (c_password body) 10 salt |}]> users)).
  { unfold register. rewrite (proj2 (findOne_email_None _ _) Hfresh).
    unfold save_user, required_string. cbn [u_id u_name u_email u_password].
    rewrite !(proj2 (truthy_string_true _)) by assumption. cbn [andb].
    rewrite Hk. reflexivity. }
  rewrite Hreg. cbn [fst snd a_status]. split; [reflexivity|].
  unfold login.
  set (u := {| u_id := new_ObjectId env; u_name := c_name body;
               u_email := c_email body;
               u_password := bcrypt_hash (c_password body) 10 salt |}).
  change (new_ObjectId env) with (u_id u) at 1.
  change (c_email body) with (u_email u) at 1.
  rewrite (findOne_email_insert users u Hfresh).
  cbn [u_password u]. rewrite Hcmp. reflexivity.
Qed.

Lemma register_then_login_witness :
  login sample_compare sample_sign None bob_credentials late_env
    (snd (register sample_hash bob_credentials sample_env "salt" sample_users))
  = {| a_status := 200; a_json := ASession "alice.jwt" 40%N "Bob" "b@x.com" |}.
Proof.
  apply (register_then_login sample_hash sample_compare sample_sign None
           bob_credentials sample_env "salt" late_env sample_users);
    try discriminate; try reflexivity.
  intros k u. unfold sample_users. rewrite lookup_insert. case_decide.
  - intros [= <-]. discriminate.
  - rewrite lookup_empty. discriminate.
Defined.

(** X5: with well-formed users, a login is answered 400 "User not found"
    when no user has the email, 400 "Invalid credentials" when the user of
    that email has a hash that bcrypt's compare refuses for the password,
    and otherwise 200 with a token signed for that user's id and the
    user's id, name and email (never the stored hash). *)
Theorem login_outcomes bcrypt_compare jwt_sign env_JWT_SECRET body env (users : Users) :
  users_wf users ->
  ((forall k u, users !! k = Some u -> u_email u <> c_email body) ->
   login bcrypt_compare jwt_sign env_JWT_SECRET body env users
   = {| a_status := 400; a_json := AError "User not found" |})
  /\ (forall k u, users !! k = Some u -> u_email u = c_email body ->
      (bcrypt_compare (c_password body) (u_password u) = false ->
       login bcrypt_compare jwt_sign env_JWT_SECRET body env users
       = {| a_status := 400; a_json := AError "Invalid credentials" |})
      /\ (bcrypt_compare (c_password body) (u_password u) = true ->
          login bcrypt_compare jwt_sign env_JWT_SECRET body env users
          = {| a_status := 200;
               a_json := ASession (jwt_sign k (JWT_SECRET env_JWT_SECRET)
                                     (Date_now env / 1000))
                           k (u_name u) (u_email u) |})).
Proof.
  intros Hwf. split; [apply login_not_found|].
  intros k u Hk He.
  rewrite (login_found bcrypt_compare jwt_sign env_JWT_SECRET body env users k u Hwf Hk He).
  rewrite (proj1 Hwf k u Hk).
  split; intros ->; reflexivity.
Qed.

Lemma login_outcomes_witness :
  login sample_compare sample_sign None
    {| c_name := ""; c_email := "a@x.com"; c_password := "wrong" |} sample_env sample_users
  = {| a_status := 400; a_json := AError "Invalid credentials" |}
  /\ login sample_compare sample_sign None alice_credentials sample_env sample_users
     = {| a_status := 200; a_json := ASession "alice.jwt" 7%N "Alice" "a@x.com" |}.
Proof.
  split.
  - apply (login_outcomes sample_compare sample_sign None
             {| c_name := ""; c_email := "a@x.com"; c_password := "wrong" |}
             sample_env sample_users sample_users_wf) with (k := 7%N) (u := alice);
      reflexivity.
  - apply (login_outcomes sample_compare sample_sign None alice_credentials
             sample_env sample_users sample_users_wf) with (k := 7%N) (u := alice);
      reflexivity.
Defined.

(** ** The client's session *)

(** X6: a sign-in survives a reload of the page and a sign-out does not:
    after [handleLogin] the effect run on mount restores the same user and
    token from [localStorage]; after [handleLogout] it restores nothing. *)
Theorem session_survives_reload (userData : UserData) (s : Session) :
  user (restore_user (reload (handleLogin userData s))) = Some userData
  /\ tracker_token (restore_user (reload (handleLogin userData s)))
     = Some (ud_token userData)
  /\ user (restore_user (reload (handleLogout s))) = None
  /\ tracker_token (restore_user (reload (handleLogout s))) = None.
Proof. repeat split. Qed.

(** X7: after [handleLogout] the client's requests carry the empty token,
    and each of the three transaction routes answers them 401 "Access
    Denied" and leaves the collection unchanged. *)
Theorem logout_requests_unauthorized jwt_verify env_JWT_SECRET (s : Session)
    body params_id env (db : Db) :
  let req := {| header_Authorization := getHeaders (tracker_token (handleLogout s));
                req_body := body |} in
  let denied := (Responded {| status := 401; json := JError "Access Denied" |}, db) in
  getExpenses jwt_verify env_JWT_SECRET req env db = denied
  /\ postExpense jwt_verify env_JWT_SECRET req env db = denied
  /\ deleteExpense jwt_verify env_JWT_SECRET params_id req env db = denied.
Proof.
  intros req denied. subst req denied.
  unfold getExpenses, postExpense, deleteExpense.
  repeat split; apply authMiddleware_missing; right; reflexivity.
Qed.

Section AuthClientProofs.

Variable bcrypt_hash : string -> Z -> string -> string.
Variable bcrypt_compare : string -> string -> bool.
Variable jwt_sign : oid -> string -> Z -> string.
Variable env_JWT_SECRET : option string.

(** The statuses of the register route. *)
Lemma register_status body env salt (users : Users) :
  let st := a_status (fst (register bcrypt_hash body env salt users)) in
  st = 201 \/ st = 400 \/ st = 500.
Proof.
  unfold register. destruct (findOne_email _ _); [right; left; reflexivity|].
  destruct (save_user _ _) as [[e|u] users']; cbn; auto.
Qed.

End AuthClientProofs.

(** X8: submitting the sign-in form.  With well-formed users: when the
    user of that email has a hash that bcrypt's compare accepts, the
    session becomes that user's id, name, email and token, saved in
    [localStorage], and nothing is alerted; when no user has the email or
    the compare fails, the session is unchanged and the server's error text
    is alerted.  The users are never changed. *)
Theorem auth_login_flow bcrypt_hash bcrypt_compare jwt_sign env_JWT_SECRET
    env salt scr (s : Session) (users : Users) :
  users_wf users -> isLogin scr = true ->
  let out := auth_handleSubmit bcrypt_hash bcrypt_compare jwt_sign env_JWT_SECRET
               env salt scr s users in
  let email := c_email (auth_form scr) in
  let password := c_password (auth_form scr) in
  ((forall k u, users !! k = Some u -> u_email u <> email) ->
   out = ({| isLogin := true; loading := false; auth_form := auth_form scr |}, s,
          Some (AlertText "User not found"), users))
  /\ (forall k u, users !! k = Some u -> u_email u = email ->
      (bcrypt_compare password (u_password u) = false ->
       out = ({| isLogin := true; loading := false; auth_form := auth_form scr |}, s,
              Some (AlertText "Invalid credentials"), users))
      /\ (bcrypt_compare password (u_password u) = true ->
          out = ({| isLogin := true; loading := false; auth_form := auth_form scr |},
                 handleLogin
                   {| ud_id := k; ud_name := u_name u; ud_email := u_email u;
                      ud_token := jwt_sign k (JWT_SECRET env_JWT_SECRET)
                                    (Date_now env / 1000) |} s,
                 None, users))).
Proof.
  intros Hwf Hmode out email password. subst out email password.
  unfold auth_handleSubmit. rewrite Hmode. split.
  - intros Hnone. rewrite login_not_found by exact Hnone. reflexivity.
  - intros k u Hk He.
    rewrite (login_found bcrypt_compare jwt_sign env_JWT_SECRET
               {| c_name := ""; c_email := c_email (auth_form scr);
                  c_password := c_password (auth_form scr) |} env users k u Hwf Hk He).
    cbn [c_password]. rewrite (proj1 Hwf k u Hk).
    split; intros ->; reflexivity.
Qed.

Lemma auth_login_flow_witness :
  auth_handleSubmit sample_hash sample_compare sample_sign None sample_env "salt"
    {| isLogin := true; loading := false; auth_form := alice_credentials |}
    signed_out sample_users
  = ({| isLogin := true; loading := false; auth_form := alice_credentials |},
     handleLogin alice_data signed_out, None, sample_users).
Proof.
  apply (auth_login_flow sample_hash sample_compare sample_sign None sample_env "salt"
           {| isLogin := true; loading := false; auth_form := alice_credentials |}
           signed_out sample_users sample_users_wf eq_refl)
    with (k := 7%N) (u := alice); reflexivity.
Defined.

(** X9: submitting the registration form never signs the user in: the
    session is unchanged whatever the server answers.  On 201 the screen
    switches to sign-in and "Account created! Please sign in." is alerted;
    on any other answer the screen stays on registration and the server's
    error is alerted. *)
Theorem auth_register_flow bcrypt_hash bcrypt_compare jwt_sign env_JWT_SECRET
    env salt scr (s : Session) (users : Users) :
  isLogin scr = false ->
  let out := auth_handleSubmit bcrypt_hash bcrypt_compare jwt_sign env_JWT_SECRET
               env salt scr s users in
  let reg := register bcrypt_hash (auth_form scr) env salt users in
  snd (fst (fst out)) = s
  /\ snd out = snd reg
  /\ (a_status (fst reg) = 201 ->
      isLogin (fst (fst (fst out))) = true
      /\ snd (fst out) = Some (AlertText "Account created! Please sign in."))
  /\ (a_status (fst reg) <> 201 ->
      isLogin (fst (fst (fst out))) = false
      /\ snd (fst out) = Some (error_alert (a_json (fst reg)) "Registration failed")).
Proof.
  intros Hmode out reg. subst out reg. unfold auth_handleSubmit. rewrite Hmode.
  pose proof (register_status bcrypt_hash (auth_form scr) env salt users) as Hst.
  destruct (register bcrypt_hash (auth_form scr) env salt users) as [res users'].
  cbn [fst snd] in *.
  destruct Hst as [Hst|[Hst|Hst]]; rewrite Hst; cbn;
    (split; [reflexivity|]); (split; [reflexivity|]);
    (split; [intros H01; try discriminate H01; split; reflexivity
            |intros H01; try (destruct (H01 eq_refl)); split; reflexivity]).
Qed.

Lemma auth_register_flow_witness :
  let out := auth_handleSubmit sample_hash sample_compare sample_sign None sample_env
               "salt" {| isLogin := false; loading := false; auth_form := bob_credentials |}
               signed_out sample_users in
  snd (fst (fst out)) = signed_out
  /\ isLogin (fst (fst (fst out))) = true
  /\ snd (fst out) = Some (AlertText "Account created! Please sign in.").
Proof.
  destruct (auth_register_flow sample_hash sample_compare sample_sign None
              sample_env "salt"
              {| isLogin := false; loading := false; auth_form := bob_credentials |}
              signed_out sample_users eq_refl) as (Hs & _ & Hok & _).
  destruct (Hok eq_refl) as [Hscr Hal].
  exact (conj Hs (conj Hscr Hal)).
Defined.

(** ** Creating and deleting, on the server and from the client *)

Lemma cast_to_jsopt {A} (v : bodyval A) : castable v = true -> cast v = Some (to_jsopt v).
Proof. destruct v; cbn; intros H; try discriminate H; reflexivity. Qed.

Lemma castable_body_fields b :
  castable_body b = true ->
  castable (b_id b) = true /\ castable (b_title b) = true
  /\ castable (b_amount b) = true /\ castable (b_type b) = true
  /\ castable (b_category b) = true /\ castable (b_date b) = true.
Proof. unfold castable_body. rewrite !andb_true_iff. tauto. Qed.

(** A castable body without [_id], posted with a token that verifies,
    under a free new id: the document is stored and sent back. *)
Lemma postExpense_stores jwt_verify env_JWT_SECRET req env user (db : Db) :
  authenticated jwt_verify env_JWT_SECRET req env user ->
  castable_body (req_body req) = true ->
  b_id (req_body req) = Missing ->
  db !! new_ObjectId env = None ->
  postExpense jwt_verify env_JWT_SECRET req env db
  = (Responded {| status := 200;
                  json := JExpense (stored_doc env (id user) (req_body req)) |},
     <[new_ObjectId env := stored_doc env (id user) (req_body req)]> db).
Proof.
  intros Hauth Hc Hid Hfree. unfold postExpense.
  rewrite (authMiddleware_next _ _ _ _ _ _ _ Hauth). unfold create_handler.
  destruct (castable_body_fields _ Hc) as (Hi & Ht & Ha & Hty & Hcat & Hd).
  unfold new_Expense, spread_with_userId.
  cbn [b_id b_userId b_title b_amount b_type b_category b_date].
  rewrite (cast_to_jsopt _ Hi), (cast_to_jsopt _ Ht), (cast_to_jsopt _ Ha),
    (cast_to_jsopt _ Hty), (cast_to_jsopt _ Hcat), (cast_to_jsopt _ Hd).
  cbn [cast required]. rewrite Hid. cbn [to_jsopt with_default].
  unfold save. cbn [_id]. rewrite Hfree. reflexivity.
Qed.

Lemma authMiddleware_refused jwt_verify env_JWT_SECRET env token body
    (next : Handler) (db : Db) :
  token_refused jwt_verify env_JWT_SECRET env token ->
  exists code msg,
    authMiddleware jwt_verify env_JWT_SECRET
      {| header_Authorization := getHeaders token; req_body := body |} env next db
    = (Responded {| status := code; json := JError msg |}, db).
Proof.
  unfold token_refused, getHeaders, authMiddleware. cbn [header_Authorization].
  destruct token as [t|]; cbn [default from_option Datatypes.id].
  - intros [->|(err & Herr)]; [eexists _, _; reflexivity|].
    destruct (truthy_string t); cbn [negb]; [|eexists _, _; reflexivity].
    rewrite Herr. eexists _, _; reflexivity.
  - intros _. eexists _, _; reflexivity.
Qed.

Lemma List_filter_Permutation {A} (f : A -> bool) (l l' : list A) :
  l ≡ₚ l' -> List.filter f l ≡ₚ List.filter f l'.
Proof.
  induction 1 as [|x l l' _ IH|x y l|l l' l'' _ IH1 _ IH2]; cbn [List.filter].
  - reflexivity.
  - destruct (f x); [constructor|]; exact IH.
  - destruct (f x), (f y); try reflexivity. constructor.
  - etransitivity; eassumption.
Qed.

Lemma documents_insert (db : Db) i x :
  db !! i = None -> documents (<[i := x]> db) ≡ₚ x :: documents db.
Proof.
  intros H. unfold documents. rewrite (map_to_list_insert db i x H). reflexivity.
Qed.

Lemma documents_delete (db : Db) i x :
  db !! i = Some x -> documents db ≡ₚ x :: documents (delete i db).
Proof.
  intros H. unfold documents. rewrite <- (map_to_list_delete db i x H). reflexivity.
Qed.

Lemma In_sort_find uid (db : Db) e :
  In e (sort_date_desc (find_by_userId uid db))
  <-> (exists k, db !! k = Some e) /\ userId e = Value uid.
Proof.
  unfold sort_date_desc, find_by_userId.
  rewrite <- list_elem_of_In, merge_sort_Permutation, list_elem_of_In.
  rewrite List.filter_In, In_documents, owned_by_true. reflexivity.
Qed.

Lemma getExpenses_authenticated jwt_verify env_JWT_SECRET req env user (db : Db) :
  authenticated jwt_verify env_JWT_SECRET req env user ->
  getExpenses jwt_verify env_JWT_SECRET req env db
  = (Responded {| status := 200;
                  json := JExpenses (sort_date_desc (find_by_userId (id user) db)) |}, db).
Proof.
  intros Hauth. unfold getExpenses.
  rewrite (authMiddleware_next _ _ _ _ _ _ _ Hauth). reflexivity.
Qed.

Lemma filter_all_true {A} (f : A -> bool) (l : list A) :
  (forall a, In a l -> f a = true) -> List.filter f l = l.
Proof.
  induction l as [|a l IH]; intros H; [reflexivity|]. cbn [List.filter].
  rewrite (H a (or_introl eq_refl)). f_equal. apply IH. intros b Hb. apply H. right. exact Hb.
Qed.

Lemma other_id_false i e : other_id i e = false <-> _id e = Value i.
Proof.
  unfold other_id. destruct (_id e) as [| |j]; try (split; [discriminate | congruence]).
  rewrite negb_false_iff, N.eqb_eq. split; congruence.
Qed.

Lemma other_id_true i e : other_id i e = true <-> _id e <> Value i.
Proof.
  rewrite <- other_id_false. destruct (other_id i e); split; congruence.
Qed.

(** What [POST /api/expenses] can do to the collection, for a caller that
    is authenticated: nothing, or one new document owned by the caller. *)
Lemma postExpense_cases jwt_verify env_JWT_SECRET req env user (db : Db) :
  authenticated jwt_verify env_JWT_SECRET req env user ->
  snd (postExpense jwt_verify env_JWT_SECRET req env db) = db
  \/ exists k saved,
       db !! k = None /\ _id saved = Value k /\ userId saved = Value (id user)
       /\ snd (postExpense jwt_verify env_JWT_SECRET req env db) = <[k := saved]> db.
Proof.
  intros Hauth. unfold postExpense.
  rewrite (authMiddleware_next _ _ _ _ _ _ _ Hauth). unfold create_handler.
  destruct (castable_body (req_body req)) eqn:Hc.
  - destruct (create_handler_castable req env user db Hc)
      as (i & t & a & ty & c & d & _ & _ & _ & _ & _ & _ & ->).
    match goal with |- context [save _ ?doc db] =>
      destruct (save_outcome (new_ObjectId env) doc db)
        as [(k & _ & Hfree & ->)|(e & _ & ->)]
    end; [|left; reflexivity].
    right. match goal with |- context [with_id k ?doc] => exists k, (with_id k doc) end.
    split; [exact Hfree|]. split; [reflexivity|]. split; reflexivity.
  - rewrite (create_handler_uncastable req env user db Hc). left. reflexivity.
Qed.

(** A submit that reaches the server and is stored there. *)
Lemma handleSubmit_stores jwt_verify env_JWT_SECRET StringToNumber
    env token st user (db : Db) :
  form_title (formData st) <> "" -> form_amount (formData st) <> "" ->
  authenticated jwt_verify env_JWT_SECRET
    {| header_Authorization := getHeaders token;
       req_body := addExpense_body StringToNumber (formData st) |} env user ->
  db !! new_ObjectId env = None ->
  let saved := stored_doc env (id user) (addExpense_body StringToNumber (formData st)) in
  handleSubmit jwt_verify env_JWT_SECRET StringToNumber env token st db
  = ({| expenses := saved :: expenses st; formData := formData_init;
        isFormOpen := false |},
     <[new_ObjectId env := saved]> db).
Proof.
  intros Ht Ha Hauth Hfree saved. unfold handleSubmit.
  rewrite !(proj2 (truthy_string_true _)) by assumption. cbn [negb orb].
  rewrite (postExpense_stores _ _ _ _ _ _ Hauth); [reflexivity| |reflexivity|exact Hfree].
  cbn [req_body]. unfold castable_body, castable, addExpense_body, json_number.
  cbn [b_id b_title b_amount b_type b_category b_date cast].
  destruct (is_finite _); reflexivity.
Qed.

(** X10: a submit of the form with a title and an amount, a token that
    verifies and a free new id: the server stores the transaction, owned by
    the caller and dated by the server's clock, with the form's title, type
    and category and the amount as the number JSON carries ([0] for [-0],
    [null] when the text is no finite number); the client puts that same
    transaction at the head of its list, resets the form and closes it. *)
Theorem handleSubmit_success jwt_verify env_JWT_SECRET StringToNumber
    env token st user (db : Db) :
  form_title (formData st) <> "" -> form_amount (formData st) <> "" ->
  authenticated jwt_verify env_JWT_SECRET
    {| header_Authorization := getHeaders token;
       req_body := addExpense_body StringToNumber (formData st) |} env user ->
  db !! new_ObjectId env = None ->
  let n := StringToNumber (form_amount (formData st)) in
  let saved :=
    {| _id := Value (new_ObjectId env); userId := Value (id user);
       title := Value (form_title (formData st));
       amount := if is_finite n then Value (json_finite n) else Null;
       type := Value (form_type (formData st));
       category := Value (form_category (formData st));
       date := Value (Date_now env) |} in
  handleSubmit jwt_verify env_JWT_SECRET StringToNumber env token st db
  = ({| expenses := saved :: expenses st; formData := formData_init;
        isFormOpen := false |},
     <[new_ObjectId env := saved]> db).
Proof.
  intros Ht Ha Hauth Hfree n saved.
  rewrite (handleSubmit_stores jwt_verify env_JWT_SECRET StringToNumber env token st
             user db Ht Ha Hauth Hfree).
  unfold stored_doc, addExpense_body, json_number.
  cbn [b_title b_amount b_type b_category b_date to_jsopt with_default].
  fold n. subst saved. destruct (is_finite n); reflexivity.
Qed.

Lemma handleSubmit_success_witness :
  handleSubmit sample_verify None sample_number sample_env (Some "alice.jwt")
    tea_state sample_db
  = ({| expenses :=
          {| _id := Value 40%N; userId := Value 7%N; title := Value "Tea";
             amount := Value 12.5%float; type := Value "expense";
             category := Value "Food"; date := Value 1793620800000 |}
          :: expenses tea_state;
        formData := formData_init; isFormOpen := false |},
     <[40%N := {| _id := Value 40%N; userId := Value 7%N; title := Value "Tea";
                  amount := Value 12.5%float; type := Value "expense";
                  category := Value "Food"; date := Value 1793620800000 |}]> sample_db).
Proof.
  apply (handleSubmit_success sample_verify None sample_number sample_env
           (Some "alice.jwt") tea_state
           {| id := 7%N; iat := 1793620800; exp := 1793624400 |} sample_db).
  - discriminate.
  - discriminate.
  - exists "alice.jwt". repeat split.
  - reflexivity.
Defined.

(** X11: a submit whose token is missing or refused (for one, expired):
    the server stores nothing, but the client still puts a row at the head
    of its list, a row without any field, and resets the form; that row
    changes none of the totals, in any time range. *)
Theorem handleSubmit_refused_token jwt_verify env_JWT_SECRET StringToNumber
    env token st (db : Db) :
  form_title (formData st) <> "" -> form_amount (formData st) <> "" ->
  token_refused jwt_verify env_JWT_SECRET env token ->
  handleSubmit jwt_verify env_JWT_SECRET StringToNumber env token st db
  = ({| expenses := blank_row :: expenses st; formData := formData_init;
        isFormOpen := false |}, db)
  /\ forall LocalTZA now timeRange filterCategory,
       d_stats (derive LocalTZA now timeRange filterCategory (blank_row :: expenses st))
       = d_stats (derive LocalTZA now timeRange filterCategory (expenses st)).
Proof.
  intros Ht Ha Href. split.
  - unfold handleSubmit.
    rewrite !(proj2 (truthy_string_true _)) by assumption. cbn [negb orb].
    unfold postExpense.
    destruct (authMiddleware_refused jwt_verify env_JWT_SECRET env token
                (addExpense_body StringToNumber (formData st))
                (create_handler
                   {| header_Authorization := getHeaders token;
                      req_body := addExpense_body StringToNumber (formData st) |} env)
                db Href) as (code & msg & ->).
    reflexivity.
  - intros LocalTZA now timeRange filterCategory.
    unfold derive, stats, timeFilteredExpenses. cbn [d_stats List.filter].
    destruct (inTimeRange LocalTZA (Some now) timeRange blank_row); reflexivity.
Qed.

Lemma handleSubmit_refused_token_witness :
  handleSubmit sample_verify None sample_number late_env (Some "alice.jwt")
    tea_state sample_db
  = ({| expenses := blank_row :: expenses tea_state; formData := formData_init;
        isFormOpen := false |}, sample_db).
Proof.
  apply (handleSubmit_refused_token sample_verify None sample_number late_env
           (Some "alice.jwt") tea_state sample_db).
  - discriminate.
  - discriminate.
  - right. exists TokenExpiredError. reflexivity.
Defined.

(** Leading zeros do not change the number read. *)
Lemma to_N_zeros k s :
  HexString.Raw.to_N (zeros k ++ s) 0%N = HexString.Raw.to_N s 0%N.
Proof. induction k as [|k IH]; [reflexivity | exact IH]. Qed.

Lemma to_N_hex_digits i : HexString.Raw.to_N (hex_digits i) 0%N = i.
Proof.
  destruct i as [|p]; [reflexivity|]. cbn [hex_digits].
  rewrite HexString.Raw.to_N_of_pos. reflexivity.
Qed.

Lemma length_zeros_app k s : String.length (zeros k ++ s) = (k + String.length s)%nat.
Proof. induction k as [|k IH]; [reflexivity|]. simpl. f_equal. exact IH. Qed.

Lemma all_hex_zeros_app k s : all_hex (zeros k ++ s) = all_hex s.
Proof. induction k as [|k IH]; [reflexivity | exact IH]. Qed.

Lemma all_hex_of_pos : forall p rest,
  all_hex (HexString.Raw.of_pos p rest) = all_hex rest.
Proof.
  fix IH 1. intros p rest.
  do 4 try destruct p as [p|p|]; try reflexivity; cbn; rewrite IH; reflexivity.
Qed.

Lemma all_hex_hex_digits i : all_hex (hex_digits i) = true.
Proof. destruct i as [|p]; [reflexivity|]. cbn [hex_digits]. apply all_hex_of_pos. Qed.

(** The cast reads the hexadecimal string of an ObjectId back as the same
    ObjectId, and refuses the string of a number that is too long for
    one. *)
Lemma castObjectId_toHexString i :
  castObjectId (toHexString i) = if is_ObjectId i then Some i else None.
Proof.
  unfold castObjectId, toHexString, is_ObjectId.
  rewrite length_zeros_app, all_hex_zeros_app, all_hex_hex_digits, andb_true_r.
  rewrite to_N_zeros, to_N_hex_digits.
  destruct (Nat.leb_spec (String.length (hex_digits i)) 24) as [Hle|Hgt].
  - replace (24 - String.length (hex_digits i) + String.length (hex_digits i))%nat
      with 24%nat by lia. reflexivity.
  - replace (24 - String.length (hex_digits i) + String.length (hex_digits i))%nat
      with (String.length (hex_digits i)) by lia.
    destruct (Nat.eqb_spec (String.length (hex_digits i)) 24) as [He|_]; [lia | reflexivity].
Qed.

(** The cast of the string the client puts in the path for a row's id. *)
Lemma castObjectId_template_id rid :
  castObjectId (template_id rid)
  = match rid with
    | Value i => if is_ObjectId i then Some i else None
    | _ => None
    end.
Proof. destruct rid as [| |i]; [reflexivity | reflexivity | apply castObjectId_toHexString]. Qed.

Lemma id_differs_Value i e : id_differs (Value i) e = other_id i e.
Proof. reflexivity. Qed.

(** [e._id !== id] is the negation of the equality of the two values. *)
Lemma id_differs_true rid e : id_differs rid e = true <-> _id e <> rid.
Proof.
  unfold id_differs. destruct rid as [| |i].
  - destruct (_id e); split; congruence.
  - destruct (_id e); split; congruence.
  - apply other_id_true.
Qed.

(** X12: [handleDelete].  Unconfirmed, it changes nothing.  Confirmed,
    with a token that is missing or refused: the gate answers, the client
    drops the rows whose [_id] equals the id and the server keeps its
    collection, so that the client then no longer shows a transaction the
    server still has.  Confirmed, with a token that verifies: for the id of
    an ObjectId the server deletes that document and the client drops the
    rows with that id; for a row whose [_id] is [undefined] or [null] (the
    row a refused submit leaves) the path segment is no ObjectId, the
    server's handler throws and sends no success message, and the
    collection is unchanged; the list is unchanged too when the request
    stays unanswered, and loses the rows with that [_id] when the framework
    answers the error.  The list afterwards is always the old one or the
    old one without the rows of that id, and the form is untouched. *)
Theorem handleDelete_effect jwt_verify env_JWT_SECRET answers_rejection
    (rid : jsopt oid) env token st (db : Db) :
  let req := {| header_Authorization := getHeaders token; req_body := empty_body |} in
  let dropped := {| expenses := List.filter (id_differs rid) (expenses st);
                    formData := formData st; isFormOpen := isFormOpen st |} in
  let handleDelete := handleDelete jwt_verify env_JWT_SECRET answers_rejection in
  handleDelete false rid env token st db = (st, db)
  /\ (token_refused jwt_verify env_JWT_SECRET env token ->
      handleDelete true rid env token st db = (dropped, db))
  /\ (forall user i,
        authenticated jwt_verify env_JWT_SECRET req env user ->
        rid = Value i -> is_ObjectId i = true ->
        handleDelete true rid env token st db = (dropped, delete i db))
  /\ (forall user,
        authenticated jwt_verify env_JWT_SECRET req env user ->
        rid = Undefined \/ rid = Null ->
        deleteExpense jwt_verify env_JWT_SECRET (template_id rid) req env db
        = (Rejected CastError, db)
        /\ handleDelete true rid env token st db
           = (if answers_rejection then dropped else st, db))
  /\ (let out := handleDelete true rid env token st db in
      (fst out = st \/ fst out = dropped)
      /\ (forall e, In e (expenses dropped) <-> In e (expenses st) /\ _id e <> rid)).
Proof.
  intros req dropped hd. subst req hd.
  split; [reflexivity|]. unfold handleDelete. cbn [negb]. fold dropped.
  fold empty_body. unfold deleteExpense. split; [|split; [|split; [|split]]].
  - intros Href.
    destruct (authMiddleware_refused jwt_verify env_JWT_SECRET env token empty_body
                (delete_handler (template_id rid)) db Href) as (code & msg & ->).
    reflexivity.
  - intros user i Hauth -> Hi.
    rewrite (authMiddleware_next _ _ _ _ _ _ _ Hauth).
    rewrite (delete_handler_cast _ i); [reflexivity|].
    rewrite castObjectId_template_id, Hi. reflexivity.
  - intros user Hauth Hrid.
    rewrite (authMiddleware_next _ _ _ _ _ _ _ Hauth).
    rewrite delete_handler_uncastable; [split; reflexivity|].
    rewrite castObjectId_template_id. destruct Hrid as [-> | ->]; reflexivity.
  - destruct (authMiddleware jwt_verify env_JWT_SECRET
                {| header_Authorization := getHeaders token; req_body := empty_body |}
                env (delete_handler (template_id rid)) db) as [[r|err] db'].
    + right. reflexivity.
    + destruct answers_rejection; [right | left]; reflexivity.
  - intros e. subst dropped. cbn [expenses].
    rewrite List.filter_In, id_differs_true. reflexivity.
Qed.

Lemma handleDelete_effect_witness :
  handleDelete sample_verify None false true (Value 2%N) late_env (Some "alice.jwt")
    tea_state sample_db
  = ({| expenses := [ sample_tx 1 "income" "Salary" 2000 1793620000000 ];
        formData := tea_form; isFormOpen := true |}, sample_db)
  /\ handleDelete sample_verify None false true (Value 2%N) sample_env (Some "alice.jwt")
       tea_state sample_db
     = ({| expenses := [ sample_tx 1 "income" "Salary" 2000 1793620000000 ];
           formData := tea_form; isFormOpen := true |}, delete 2%N sample_db)
  /\ handleDelete sample_verify None false true Undefined sample_env (Some "alice.jwt")
       {| expenses := blank_row :: expenses tea_state; formData := formData_init;
          isFormOpen := false |} sample_db
     = ({| expenses := blank_row :: expenses tea_state; formData := formData_init;
           isFormOpen := false |}, sample_db)
  /\ handleDelete sample_verify None true true Undefined sample_env (Some "alice.jwt")
       {| expenses := blank_row :: expenses tea_state; formData := formData_init;
          isFormOpen := false |} sample_db
     = ({| expenses := expenses tea_state; formData := formData_init;
           isFormOpen := false |}, sample_db).
Proof.
  split; [|split; [|split]].
  - destruct (handleDelete_effect sample_verify None false (Value 2%N) late_env
                (Some "alice.jwt") tea_state sample_db) as (_ & Hno & _).
    apply Hno. right. exists TokenExpiredError. reflexivity.
  - destruct (handleDelete_effect sample_verify None false (Value 2%N) sample_env
                (Some "alice.jwt") tea_state sample_db) as (_ & _ & Hok & _).
    apply (Hok alice_claims 2%N); [|reflexivity|reflexivity].
    exists "alice.jwt". repeat split.
  - destruct (handleDelete_effect sample_verify None false Undefined sample_env
                (Some "alice.jwt")
                {| expenses := blank_row :: expenses tea_state; formData := formData_init;
                   isFormOpen := false |} sample_db) as (_ & _ & _ & Hthrow & _).
    apply (Hthrow alice_claims); [|left; reflexivity].
    exists "alice.jwt". repeat split.
  - destruct (handleDelete_effect sample_verify None true Undefined sample_env
                (Some "alice.jwt")
                {| expenses := blank_row :: expenses tea_state; formData := formData_init;
                   isFormOpen := false |} sample_db) as (_ & _ & _ & Hthrow & _).
    apply (Hthrow alice_claims); [|left; reflexivity].
    exists "alice.jwt". repeat split.
Defined.

Lemma db_wf_insert (db : Db) k e :
  db_wf db -> _id e = Value k -> db_wf (<[k := e]> db).
Proof.
  intros Hwf He j x. rewrite lookup_insert. case_decide as Hd.
  - intros [= <-]. congruence.
  - apply Hwf.
Qed.

Lemma db_wf_delete (db : Db) i : db_wf db -> db_wf (delete i db).
Proof.
  intros Hwf j x Hj. apply lookup_delete_Some in Hj as [_ Hj]. apply (Hwf j x Hj).
Qed.

(** In a well-formed collection without the key [i], no document has the
    id [i]. *)
Lemma documents_delete_other_id (db : Db) i e :
  db_wf db -> In e (documents (delete i db)) -> other_id i e = true.
Proof.
  intros Hwf Hin. apply In_documents in Hin as (k & Hk).
  apply lookup_delete_Some in Hk as [Hne Hk].
  apply other_id_true. rewrite (Hwf k e Hk). congruence.
Qed.

(** The caller's documents after one of them, or none, is deleted. *)
Lemma find_by_userId_delete uid (db : Db) i :
  db_wf db ->
  List.filter (other_id i) (find_by_userId uid db) ≡ₚ find_by_userId uid (delete i db).
Proof.
  intros Hwf. unfold find_by_userId.
  assert (Hkeep : List.filter (other_id i) (List.filter (owned_by uid) (documents (delete i db)))
                  = List.filter (owned_by uid) (documents (delete i db))).
  { apply filter_all_true. intros e He. apply List.filter_In in He as [He _].
    apply (documents_delete_other_id db i e Hwf He). }
  destruct (db !! i) as [x|] eqn:Hi.
  - rewrite (List_filter_Permutation (other_id i) _ _
               (List_filter_Permutation (owned_by uid) _ _ (documents_delete db i x Hi))).
    cbn [List.filter].
    assert (Hx : other_id i x = false) by (apply other_id_false, Hwf, Hi).
    destruct (owned_by uid x); cbn [List.filter]; rewrite ?Hx, Hkeep; reflexivity.
  - rewrite (delete_id db i Hi) in *. rewrite Hkeep. reflexivity.
Qed.

(** The rows of a list in sync with a well-formed collection all carry an
    ObjectId, so that none has the [_id] [undefined] or [null]. *)
Lemma in_sync_id_differs uid st (db : Db) rid :
  db_wf db -> in_sync uid st db -> rid = Undefined \/ rid = Null ->
  List.filter (id_differs rid) (expenses st) = expenses st.
Proof.
  intros Hwf Hsync Hrid. apply filter_all_true. intros e He.
  apply (Permutation_in _ Hsync) in He. apply List.filter_In in He as [He _].
  apply In_documents in He as (k & Hk). apply id_differs_true.
  rewrite (Hwf k e Hk). destruct Hrid as [-> | ->]; discriminate.
Qed.

(** X13: the client's list keeps mirroring the server.  If the collection
    is well formed and the client's list holds exactly the caller's
    transactions, then after a successful submit, and after a confirmed
    delete by the [_id] of any row ([undefined], [null] or an ObjectId),
    both with a token that verifies for that caller, the client's list
    again holds exactly the caller's transactions and the collection is
    well formed. *)
Theorem client_stays_in_sync jwt_verify env_JWT_SECRET StringToNumber answers_rejection
    env token st user (db : Db) :
  db_wf db -> in_sync (id user) st db ->
  (forall body, authenticated jwt_verify env_JWT_SECRET
     {| header_Authorization := getHeaders token; req_body := body |} env user) ->
  (form_title (formData st) <> "" -> form_amount (formData st) <> "" ->
   db !! new_ObjectId env = None ->
   let out := handleSubmit jwt_verify env_JWT_SECRET StringToNumber env token st db in
   in_sync (id user) (fst out) (snd out) /\ db_wf (snd out))
  /\ (forall rid : jsopt oid,
        (forall i, rid = Value i -> is_ObjectId i = true) ->
        let out := handleDelete jwt_verify env_JWT_SECRET answers_rejection
                     true rid env token st db in
        in_sync (id user) (fst out) (snd out) /\ db_wf (snd out)).
Proof.
  intros Hwf Hsync Hauth. split.
  - unfold in_sync in *. intros Ht Ha Hfree.
    rewrite (handleSubmit_stores jwt_verify env_JWT_SECRET StringToNumber env token st
               user db Ht Ha (Hauth _) Hfree).
    cbn [fst snd expenses]. split.
    + unfold find_by_userId.
      rewrite (List_filter_Permutation _ _ _ (documents_insert db _ _ Hfree)).
      cbn [List.filter].
      rewrite (proj2 (owned_by_true (id user)
                        (stored_doc env (id user)
                           (addExpense_body StringToNumber (formData st)))) eq_refl).
      constructor. exact Hsync.
    + apply db_wf_insert; [exact Hwf | reflexivity].
  - intros rid Hrid. unfold handleDelete. cbn [negb].
    fold empty_body. unfold deleteExpense.
    rewrite (authMiddleware_next _ _ _ _ _ _ _ (Hauth empty_body)).
    unfold delete_handler, findByIdAndDelete. rewrite castObjectId_template_id.
    assert (Hthrown : rid = Undefined \/ rid = Null ->
              in_sync (id user)
                (if answers_rejection
                 then {| expenses := List.filter (id_differs rid) (expenses st);
                         formData := formData st; isFormOpen := isFormOpen st |}
                 else st) db).
    { intros Hr. destruct answers_rejection; [|exact Hsync].
      unfold in_sync. cbn [expenses].
      rewrite (in_sync_id_differs (id user) st db rid Hwf Hsync Hr). exact Hsync. }
    destruct rid as [| |i].
    + cbn [fst snd]. split; [apply Hthrown; left; reflexivity | exact Hwf].
    + cbn [fst snd]. split; [apply Hthrown; right; reflexivity | exact Hwf].
    + rewrite (Hrid i eq_refl). unfold in_sync in *.
      cbn [fst snd expenses]. rewrite (filter_ext _ _ (id_differs_Value i)). split.
      * rewrite (List_filter_Permutation _ _ _ Hsync). apply find_by_userId_delete, Hwf.
      * apply db_wf_delete, Hwf.
Qed.

Lemma sample_db_wf : db_wf sample_db.
Proof.
  intros k e. unfold sample_db. rewrite !lookup_insert.
  repeat case_decide; try (intros [= <-]; subst; reflexivity);
    rewrite lookup_empty; discriminate.
Defined.

Lemma tea_state_in_sync : in_sync 7%N tea_state sample_db.
Proof. unfold in_sync. vm_compute. reflexivity. Defined.

Lemma client_stays_in_sync_witness :
  (let out := handleSubmit sample_verify None sample_number sample_env (Some "alice.jwt")
                tea_state sample_db in
   in_sync 7%N (fst out) (snd out) /\ db_wf (snd out))
  /\ (let out := handleDelete sample_verify None true true (Value 2%N) sample_env
                   (Some "alice.jwt") tea_state sample_db in
      in_sync 7%N (fst out) (snd out) /\ db_wf (snd out)).
Proof.
  destruct (client_stays_in_sync sample_verify None sample_number true sample_env
              (Some "alice.jwt") tea_state
              {| id := 7%N; iat := 1793620800; exp := 1793624400 |} sample_db
              sample_db_wf tea_state_in_sync) as [Hsub Hdel].
  - intros body. exists "alice.jwt". repeat split.
  - split; [apply Hsub; [discriminate | discriminate | reflexivity] | apply Hdel].
    intros i [= <-]. reflexivity.
Defined.

(** X14: a transaction that has just been created is in the caller's next
    listing, and no transaction listed before it is older: the listing is
    [l1 ++ saved :: l2] where every date in [l1] is at least the new
    transaction's date. *)
Theorem create_then_list jwt_verify env_JWT_SECRET req env user req' env' user' (db : Db) :
  authenticated jwt_verify env_JWT_SECRET req env user ->
  castable_body (req_body req) = true ->
  b_id (req_body req) = Missing ->
  db !! new_ObjectId env = None ->
  authenticated jwt_verify env_JWT_SECRET req' env' user' ->
  id user' = id user ->
  let saved := stored_doc env (id user) (req_body req) in
  let db' := snd (postExpense jwt_verify env_JWT_SECRET req env db) in
  exists l1 l2,
    fst (getExpenses jwt_verify env_JWT_SECRET req' env' db')
    = Responded {| status := 200; json := JExpenses (l1 ++ saved :: l2) |}
    /\ Forall (fun e => date_leb (date saved) (date e) = true) l1.
Proof.
  intros Hauth Hc Hid Hfree Hauth' Huser saved db'. subst db'.
  rewrite (postExpense_stores _ _ _ _ _ _ Hauth Hc Hid Hfree). cbn [snd]. fold saved.
  rewrite (getExpenses_authenticated _ _ _ _ _ _ Hauth'). cbn [fst]. rewrite Huser.
  set (l := sort_date_desc (find_by_userId (id user) (<[new_ObjectId env := saved]> db))).
  assert (Hin : In saved l).
  { apply In_sort_find. split; [|reflexivity].
    exists (new_ObjectId env). apply lookup_insert_eq. }
  apply List.in_split in Hin as (l1 & l2 & Hl). exists l1, l2. split; [congruence|].
  assert (Hs : StronglySorted date_desc l)
    by (apply StronglySorted_merge_sort; apply _).
  rewrite Hl in Hs. apply Forall_forall. intros e He.
  apply (StronglySorted_app_1_elem_of date_desc l1 (saved :: l2) e saved Hs);
    [exact He | left].
Qed.

Lemma create_then_list_witness :
  exists l1 l2,
    fst (getExpenses sample_verify None (sample_request (Some "alice.jwt") empty_body)
           sample_env
           (snd (postExpense sample_verify None
                   (sample_request (Some "alice.jwt") forged_body) sample_env sample_db)))
    = Responded {| status := 200; json := JExpenses (l1 ++ forged_stored :: l2) |}
    /\ Forall (fun e => date_leb (date forged_stored) (date e) = true) l1.
Proof.
  apply (create_then_list sample_verify None
           (sample_request (Some "alice.jwt") forged_body) sample_env alice_claims
           (sample_request (Some "alice.jwt") empty_body) sample_env alice_claims
           sample_db (sample_authenticated forged_body)); try reflexivity.
  apply sample_authenticated.
Defined.

(** X15: creating a transaction does not change what any other user
    lists: after a [POST /api/expenses] by one caller, whatever its body, a
    caller with another id is answered the same transactions as before. *)
Theorem create_isolated jwt_verify env_JWT_SECRET req env user req' env' user' (db : Db) :
  authenticated jwt_verify env_JWT_SECRET req env user ->
  authenticated jwt_verify env_JWT_SECRET req' env' user' ->
  id user' <> id user ->
  let db' := snd (postExpense jwt_verify env_JWT_SECRET req env db) in
  exists l l',
    fst (getExpenses jwt_verify env_JWT_SECRET req' env' db)
    = Responded {| status := 200; json := JExpenses l |}
    /\ fst (getExpenses jwt_verify env_JWT_SECRET req' env' db')
       = Responded {| status := 200; json := JExpenses l' |}
    /\ l ≡ₚ l'.
Proof.
  intros Hauth Hauth' Hne db'. subst db'.
  rewrite !(getExpenses_authenticated _ _ _ _ _ _ Hauth'). cbn [fst].
  eexists _, _. split; [reflexivity|]. split; [reflexivity|].
  unfold sort_date_desc. rewrite !merge_sort_Permutation.
  destruct (postExpense_cases jwt_verify env_JWT_SECRET req env user db Hauth)
    as [->|(k & saved & Hfree & _ & Hown & ->)]; [reflexivity|].
  unfold find_by_userId.
  rewrite (List_filter_Permutation _ _ _ (documents_insert db k saved Hfree)).
  cbn [List.filter].
  destruct (owned_by (id user') saved) eqn:Ho; [|reflexivity].
  apply owned_by_true in Ho. congruence.
Qed.

(** X16: the delete route does not look at the owner.  Whoever the
    authenticated caller is, deleting the id of a stored transaction (by a
    path segment that is the ObjectId [i]) removes it from its owner's
    listing: the owner is then answered exactly the other transactions
    stored for that owner. *)
Theorem delete_ignores_ownership jwt_verify env_JWT_SECRET
    (params_id : string) (i : oid) req env user req' env' owner doc (db : Db) :
  authenticated jwt_verify env_JWT_SECRET req env user ->
  castObjectId params_id = Some i ->
  db !! i = Some doc ->
  authenticated jwt_verify env_JWT_SECRET req' env' owner ->
  let db' := snd (deleteExpense jwt_verify env_JWT_SECRET params_id req env db) in
  db' !! i = None
  /\ exists l,
       fst (getExpenses jwt_verify env_JWT_SECRET req' env' db')
       = Responded {| status := 200; json := JExpenses l |}
       /\ forall e, In e l <->
            exists k, k <> i /\ db !! k = Some e /\ userId e = Value (id owner).
Proof.
  intros Hauth Hcast Hi Hauth' db'. subst db'. unfold deleteExpense.
  rewrite (authMiddleware_next _ _ _ _ _ _ _ Hauth).
  rewrite (delete_handler_cast params_id i user db Hcast). cbn [snd].
  split; [apply lookup_delete_eq|].
  rewrite (getExpenses_authenticated _ _ _ _ _ _ Hauth'). cbn [fst].
  eexists. split; [reflexivity|].
  intros e. rewrite In_sort_find. split.
  - intros [(k & Hk) Ho]. apply lookup_delete_Some in Hk as [Hne Hk].
    exists k. repeat split; [congruence | exact Hk | exact Ho].
  - intros (k & Hne & Hk & Ho). split; [|exact Ho].
    exists k. apply lookup_delete_Some. split; [congruence | exact Hk].
Qed.

Lemma delete_ignores_ownership_witness :
  let db' := snd (deleteExpense sample_verify None "000000000000000000000003"
                    (sample_request (Some "alice.jwt") empty_body) sample_env sample_db) in
  sample_db !! 3%N
  = Some {| _id := Value 3%N; userId := Value 8%N; title := Value "other";
            amount := Value 12%float; type := Value "expense";
            category := Value "Food"; date := Value 1793620700000 |}
  /\ db' !! 3%N = None.
Proof.
  split; [reflexivity|].
  apply (delete_ignores_ownership sample_verify None "000000000000000000000003" 3%N
           (sample_request (Some "alice.jwt") empty_body) sample_env alice_claims
           (sample_request (Some "alice.jwt") empty_body) sample_env alice_claims _
           sample_db
           (sample_authenticated empty_body) eq_refl eq_refl
           (sample_authenticated empty_body)).
Defined.

Lemma create_isolated_witness :
  exists l l',
    fst (getExpenses two_user_verify None (sample_request (Some "bob.jwt") empty_body)
           sample_env sample_db)
    = Responded {| status := 200; json := JExpenses l |}
    /\ fst (getExpenses two_user_verify None (sample_request (Some "bob.jwt") empty_body)
              sample_env
              (snd (postExpense two_user_verify None
                      (sample_request (Some "alice.jwt") forged_body) sample_env sample_db)))
       = Responded {| status := 200; json := JExpenses l' |}
    /\ l ≡ₚ l'.
Proof.
  apply (create_isolated two_user_verify None
           (sample_request (Some "alice.jwt") forged_body) sample_env alice_claims
           (sample_request (Some "bob.jwt") empty_body) sample_env
           {| id := 8%N; iat := 1793620800; exp := 1793624400 |} sample_db).
  - exists "alice.jwt". repeat split.
  - exists "bob.jwt". repeat split.
  - discriminate.
Defined.

(** ** The time ranges and the totals *)

Lemma filter_filter_implies {A} (f g : A -> bool) (l : list A) :
  (forall x, f x = true -> g x = true) ->
  List.filter f (List.filter g l) = List.filter f l.
Proof.
  intros H. induction l as [|x l IH]; [reflexivity|]. cbn [List.filter].
  destruct (g x) eqn:Hg; cbn [List.filter].
  - rewrite IH. reflexivity.
  - destruct (f x) eqn:Hf; [|exact IH]. rewrite (H x Hf) in Hg. discriminate.
Qed.

Lemma daily_in_monthly LocalTZA (now : Z) item :
  inTimeRange LocalTZA (Some now) "daily" item = true ->
  inTimeRange LocalTZA (Some now) "monthly" item = true.
Proof.
  unfold inTimeRange. cbn [String.eqb Ascii.eqb Bool.eqb].
  unfold toDateString, getMonth, getFullYear, strict_eq_dateString, strict_eq_field.
  destruct (new_Date (date item)) as [t|]; cbn; try discriminate.
  destruct (local_civil LocalTZA t) as [[y1 m1] d1],
           (local_civil LocalTZA now) as [[y2 m2] d2].
  cbn. rewrite !andb_true_iff. tauto.
Qed.

Lemma monthly_in_yearly LocalTZA now item :
  inTimeRange LocalTZA now "monthly" item = true ->
  inTimeRange LocalTZA now "yearly" item = true.
Proof.
  unfold inTimeRange. cbn [String.eqb Ascii.eqb Bool.eqb].
  rewrite andb_true_iff. tauto.
Qed.

(** X17: the time ranges nest.  The daily view is the daily filter of the
    monthly view, which is the monthly filter of the yearly view: every
    transaction shown for today is shown for this month, and every one
    shown for this month is shown for this year, in the same order. *)
Theorem time_ranges_nest LocalTZA now (expenses : list Expense) :
  timeFilteredExpenses LocalTZA now "daily" expenses
  = List.filter (inTimeRange LocalTZA (Some now) "daily")
      (timeFilteredExpenses LocalTZA now "monthly" expenses)
  /\ timeFilteredExpenses LocalTZA now "monthly" expenses
     = List.filter (inTimeRange LocalTZA (Some now) "monthly")
         (timeFilteredExpenses LocalTZA now "yearly" expenses)
  /\ (forall e, In e (timeFilteredExpenses LocalTZA now "daily" expenses) ->
                In e (timeFilteredExpenses LocalTZA now "monthly" expenses))
  /\ (forall e, In e (timeFilteredExpenses LocalTZA now "monthly" expenses) ->
                In e (timeFilteredExpenses LocalTZA now "yearly" expenses)).
Proof.
  unfold timeFilteredExpenses. split; [|split; [|split]].
  - symmetry. apply filter_filter_implies, daily_in_monthly.
  - symmetry. apply filter_filter_implies, monthly_in_yearly.
  - intros e. rewrite !List.filter_In. intros [Hin Hd].
    split; [exact Hin | apply daily_in_monthly, Hd].
  - intros e. rewrite !List.filter_In. intros [Hin Hd].
    split; [exact Hin | apply monthly_in_yearly, Hd].
Qed.

(** X18: a transaction without a date is shown in no daily, monthly or
    yearly view (it is shown under [all]), and a transaction whose date is
    [null] is filtered as one dated 1 January 1970, 00:00 UTC. *)
Theorem undated_transactions LocalTZA now timeRange (item : Expense) :
  (date item = Undefined ->
   inTimeRange LocalTZA (Some now) timeRange item
   = negb (String.eqb timeRange "daily" || String.eqb timeRange "monthly"
           || String.eqb timeRange "yearly"))
  /\ (date item = Null ->
      inTimeRange LocalTZA (Some now) timeRange item
      = inTimeRange LocalTZA (Some now) timeRange
          {| _id := _id item; userId := userId item; title := title item;
             amount := amount item; type := type item; category := category item;
             date := Value 0 |}).
Proof.
  unfold inTimeRange. split; intros ->; cbn [date new_Date]; [|reflexivity].
  destruct (String.eqb timeRange "daily"); [reflexivity|].
  destruct (String.eqb timeRange "monthly"); [reflexivity|].
  destruct (String.eqb timeRange "yearly"); reflexivity.
Qed.

Lemma undated_transactions_witness :
  timeFilteredExpenses utc 1793620800000 "monthly" [undated_row] = [].
Proof.
  unfold timeFilteredExpenses. cbn [List.filter].
  rewrite (proj1 (undated_transactions utc 1793620800000 "monthly" undated_row) eq_refl).
  reflexivity.
Defined.

(** At most one of the four type tests of the reducer succeeds. *)
Lemma type_tests (ty : jsopt string) :
  let inc := strict_eq_string ty "income" in
  let exp := strict_eq_string ty "expense" in
  let inv := strict_eq_string ty "investment" in
  let wd := strict_eq_string ty "withdrawal" in
  (inc = true /\ exp = false /\ inv = false /\ wd = false)
  \/ (inc = false /\ exp = true /\ inv = false /\ wd = false)
  \/ (inc = false /\ exp = false /\ inv = true /\ wd = false)
  \/ (inc = false /\ exp = false /\ inv = false /\ wd = true)
  \/ (inc = false /\ exp = false /\ inv = false /\ wd = false).
Proof.
  cbv zeta. unfold strict_eq_string.
  destruct ty as [| |s]; [right; right; right; right; repeat split ..|].
  destruct (String.eqb_spec s "income") as [->|_]; [left; repeat split|].
  destruct (String.eqb_spec s "expense") as [->|_]; [right; left; repeat split|].
  destruct (String.eqb_spec s "investment") as [->|_]; [right; right; left; repeat split|].
  destruct (String.eqb_spec s "withdrawal") as [->|_];
    [right; right; right; left; repeat split|].
  right; right; right; right; repeat split.
Qed.

Lemma fold_stats_sums sc l zs :
  scale_ok sc ->
  Forall2 (amount_is sc) l zs ->
  forall i w e v,
    Z.abs i + Z.abs w + Z.abs e + Z.abs v + sum_abs zs < 2 ^ 53 ->
    fold_left stats_step l
      (mkStats (Z2F sc (i + w - e - v)) (Z2F sc i) (Z2F sc e) (Z2F sc v) (Z2F sc w))
    = let i' := i + typed_sum "income" l zs in
      let w' := w + typed_sum "withdrawal" l zs in
      let e' := e + typed_sum "expense" l zs in
      let v' := v + typed_sum "investment" l zs in
      mkStats (Z2F sc (i' + w' - e' - v')) (Z2F sc i') (Z2F sc e') (Z2F sc v') (Z2F sc w').
Proof.
  intros Hsc. induction 1 as [|t z l zs Ht _ IH]; intros i w e v Hb.
  - cbn. rewrite !Z.add_0_r. reflexivity.
  - rewrite sum_abs_cons in Hb. pose proof (sum_abs_nonneg zs) as Hnn.
    cbn [fold_left typed_sum]. unfold amount_is in Ht.
    unfold stats_step at 2. cbv zeta. rewrite !Ht.
    cbn [totalBalance totalIncome totalExpense totalInvested totalWithdrawn].
    destruct (type_tests (type t))
      as [(H1 & H2 & H3 & H4)|[(H1 & H2 & H3 & H4)|[(H1 & H2 & H3 & H4)
         |[(H1 & H2 & H3 & H4)|(H1 & H2 & H3 & H4)]]]];
      rewrite H1, H2, H3, H4.
    + rewrite !(Z2F_add sc Hsc) by lia.
      replace (i + w - e - v + z) with ((i + z) + w - e - v) by lia.
      rewrite IH by lia. cbv zeta. f_equal; f_equal; lia.
    + rewrite (Z2F_add sc Hsc) by lia. rewrite (Z2F_sub sc Hsc) by lia.
      replace (i + w - e - v - z) with (i + w - (e + z) - v) by lia.
      rewrite IH by lia. cbv zeta. f_equal; f_equal; lia.
    + rewrite (Z2F_add sc Hsc) by lia. rewrite (Z2F_sub sc Hsc) by lia.
      replace (i + w - e - v - z) with (i + w - e - (v + z)) by lia.
      rewrite IH by lia. cbv zeta. f_equal; f_equal; lia.
    + rewrite !(Z2F_add sc Hsc) by lia.
      replace (i + w - e - v + z) with (i + (w + z) - e - v) by lia.
      rewrite IH by lia. cbv zeta. f_equal; f_equal; lia.
    + rewrite IH by lia. cbv zeta. f_equal; f_equal; lia.
Qed.

(** X19: each total is the exact sum of the amounts of its type.  When
    every amount is the multiple [z * 2^sc] of one power of two with
    [-1000 <= sc <= 900] and the magnitudes of the [z] sum to less than
    [2^53], [stats] returns
    [totalIncome], [totalExpense], [totalInvested] and [totalWithdrawn] as
    the sums of the amounts of the transactions of type income, expense,
    investment and withdrawal, and [totalBalance] as income plus
    withdrawals minus expenses minus investments, all without rounding. *)
Theorem stats_exact_sums sc (l : list Expense) (zs : list Z) :
  scale_ok sc ->
  Forall2 (amount_is sc) l zs ->
  sum_abs zs < 2 ^ 53 ->
  let I := typed_sum "income" l zs in
  let E := typed_sum "expense" l zs in
  let V := typed_sum "investment" l zs in
  let W := typed_sum "withdrawal" l zs in
  stats l = {| totalBalance := Z2F sc (I + W - E - V); totalIncome := Z2F sc I;
               totalExpense := Z2F sc E; totalInvested := Z2F sc V;
               totalWithdrawn := Z2F sc W |}.
Proof.
  intros Hsc Hamt Hb. cbv zeta. unfold stats.
  change stats_init with
    (mkStats (Z2F sc (0 + 0 - 0 - 0)) (Z2F sc 0) (Z2F sc 0) (Z2F sc 0) (Z2F sc 0)).
  rewrite (fold_stats_sums sc l zs Hsc Hamt 0 0 0 0) by (simpl; lia).
  cbv zeta. rewrite !Z.add_0_l. reflexivity.
Qed.

Lemma stats_exact_sums_witness :
  stats scenario_sample
  = {| totalBalance := 1995.5; totalIncome := 2000; totalExpense := 4.5;
       totalInvested := 0; totalWithdrawn := 0 |}.
Proof.
  rewrite (stats_exact_sums (-1) scenario_sample [4000; 9]).
  - vm_compute. reflexivity.
  - unfold scale_ok. lia.
  - repeat constructor; vm_compute; reflexivity.
  - vm_compute. reflexivity.
Defined.

(** ** A missing amount *)

Lemma Prim2SF_nan : Prim2SF nan = S754_nan.
Proof. reflexivity. Qed.

Lemma nan_add_r x : (x + nan)%float = nan.
Proof.
  apply Prim2SF_inj. rewrite add_spec, Prim2SF_nan.
  destruct (Prim2SF x) as [[|]|[|]| |[|] m e]; reflexivity.
Qed.

Lemma nan_sub_r x : (x - nan)%float = nan.
Proof.
  apply Prim2SF_inj. rewrite sub_spec, Prim2SF_nan.
  destruct (Prim2SF x) as [[|]|[|]| |[|] m e]; reflexivity.
Qed.

Lemma nan_add_l x : (nan + x)%float = nan.
Proof. apply Prim2SF_inj. rewrite add_spec, Prim2SF_nan. reflexivity. Qed.

Lemma nan_sub_l x : (nan - x)%float = nan.
Proof. apply Prim2SF_inj. rewrite sub_spec, Prim2SF_nan. reflexivity. Qed.

(** Once the balance is [NaN] it stays [NaN]. *)
Lemma stats_step_nan acc t :
  totalBalance acc = nan -> totalBalance (stats_step acc t) = nan.
Proof.
  intros H. unfold stats_step.
  destruct (strict_eq_string (type t) "income");
    [|destruct (strict_eq_string (type t) "expense");
      [|destruct (strict_eq_string (type t) "investment");
        [|destruct (strict_eq_string (type t) "withdrawal")]]];
    cbn [totalBalance]; rewrite ?H, ?nan_add_l, ?nan_sub_l; reflexivity.
Qed.

Lemma fold_stats_nan l acc :
  totalBalance acc = nan -> totalBalance (fold_left stats_step l acc) = nan.
Proof.
  revert acc. induction l as [|t l IH]; intros acc H; [exact H|].
  cbn [fold_left]. apply IH, stats_step_nan, H.
Qed.

(** X20: one transaction of a known type whose amount is missing turns the
    balance into [NaN]: wherever it stands in the list, if it passes the
    time filter the balance is [NaN], whatever the other transactions are.
    (The create route stores such a transaction.) *)
Theorem missing_amount_poisons_balance LocalTZA now timeRange filterCategory
    (t : Expense) (before after : list Expense) :
  amount t = Undefined ->
  type t = Value "income" \/ type t = Value "expense"
  \/ type t = Value "investment" \/ type t = Value "withdrawal" ->
  inTimeRange LocalTZA (Some now) timeRange t = true ->
  totalBalance (d_stats (derive LocalTZA now timeRange filterCategory
                           (before ++ t :: after))) = nan.
Proof.
  intros Ha Hty Hin. unfold derive, stats, timeFilteredExpenses. cbn [d_stats].
  rewrite List.filter_app, fold_left_app. cbn [List.filter]. rewrite Hin.
  cbn [fold_left]. apply fold_stats_nan.
  unfold stats_step. rewrite Ha. cbn [Number].
  destruct Hty as [-> | [-> | [-> | ->]]]; cbn [strict_eq_string String.eqb Ascii.eqb Bool.eqb totalBalance];
    rewrite ?nan_add_r, ?nan_sub_r; reflexivity.
Qed.

Lemma missing_amount_poisons_balance_witness :
  totalBalance (d_stats (derive utc 1793620800000 "monthly" "All"
                           (integer_sample ++ amountless_row :: scenario_sample))) = nan.
Proof.
  apply (missing_amount_poisons_balance utc 1793620800000 "monthly" "All"
           amountless_row integer_sample scenario_sample).
  - reflexivity.
  - right. left. reflexivity.
  - reflexivity.
Defined.

(** ** The sign shown before an amount *)

(** X21: the sign of a row agrees with the balance for the four known
    types.  A row is shown with "+" exactly when its type is income or
    withdrawal, and then its amount is added to the balance; a row of type
    expense or investment is shown with "-" and its amount is subtracted
    from the balance.  A row of any other type is shown with "-" as well,
    although it changes no total. *)
Theorem amount_sign_and_balance (acc : Stats) (expense : Expense) :
  let known ty := type expense = Value ty in
  (amount_sign expense = "+" <-> known "income" \/ known "withdrawal")
  /\ (known "income" \/ known "withdrawal" ->
      totalBalance (stats_step acc expense)
      = (totalBalance acc + Number (amount expense))%float)
  /\ (known "expense" \/ known "investment" ->
      amount_sign expense = "-"
      /\ totalBalance (stats_step acc expense)
         = (totalBalance acc - Number (amount expense))%float)
  /\ (~ known "income" -> ~ known "expense" -> ~ known "investment" ->
      ~ known "withdrawal" ->
      amount_sign expense = "-" /\ stats_step acc expense = acc).
Proof.
  intros known. subst known. cbv beta.
  split; [|split; [|split]].
  - unfold amount_sign.
    destruct (strict_eq_string (type expense) "income") eqn:Hi;
      [|destruct (strict_eq_string (type expense) "withdrawal") eqn:Hw]; cbn [orb].
    + split; [intros _; left; apply strict_eq_string_true, Hi | reflexivity].
    + split; [intros _; right; apply strict_eq_string_true, Hw | reflexivity].
    + split; [discriminate|].
      intros [H|H]; apply strict_eq_string_true in H; congruence.
  - intros [H|H]; unfold stats_step; rewrite H; reflexivity.
  - intros [H|H]; unfold amount_sign, stats_step; rewrite H; split; reflexivity.
  - intros Hi He Hv Hw. split; [|apply stats_step_default; assumption].
    unfold amount_sign.
    rewrite (strict_eq_string_false _ _ Hi), (strict_eq_string_false _ _ Hw).
    reflexivity.
Qed.

Lemma amount_sign_and_balance_witness :
  totalBalance (stats_step (stats integer_sample)
                  (sample_tx 9 "income" "Salary" 5 1793620800000))
  = (totalBalance (stats integer_sample) + 5)%float
  /\ totalBalance (stats_step (stats integer_sample)
                     (sample_tx 9 "investment" "Stocks" 5 1793620800000))
     = (totalBalance (stats integer_sample) - 5)%float
  /\ stats_step (stats integer_sample) (sample_tx 9 "gift" "Salary" 5 1793620800000)
     = stats integer_sample.
Proof.
  split; [|split].
  - apply (amount_sign_and_balance (stats integer_sample)
             (sample_tx 9 "income" "Salary" 5 1793620800000)).
    left. reflexivity.
  - apply (amount_sign_and_balance (stats integer_sample)
             (sample_tx 9 "investment" "Stocks" 5 1793620800000)).
    right. reflexivity.
  - apply (amount_sign_and_balance (stats integer_sample)
             (sample_tx 9 "gift" "Salary" 5 1793620800000)); discriminate.
Defined.

(** ** The mock API *)

(** Only the two zeros are equal to zero. *)
Lemma eqb_zero f : PrimFloat.eqb f 0 = true -> f = 0%float \/ f = (-0)%float.
Proof.
  rewrite FloatAxioms.eqb_spec. intros H.
  rewrite <- (SF2Prim_Prim2SF f).
  destruct (Prim2SF f) as [[|]|[|]| |[|] m e]; try discriminate H.
  - right. reflexivity.
  - left. reflexivity.
Qed.

Lemma is_finite_json_finite f : is_finite (json_finite f) = is_finite f.
Proof.
  unfold json_finite. destruct (PrimFloat.eqb f 0) eqn:H; [|reflexivity].
  destruct (eqb_zero f H) as [-> | ->]; reflexivity.
Qed.

Lemma json_finite_idem f : json_finite (json_finite f) = json_finite f.
Proof.
  unfold json_finite. destruct (PrimFloat.eqb f 0) eqn:H; [reflexivity|].
  rewrite H. reflexivity.
Qed.

Lemma JSON_number_idem v : JSON_number (JSON_number v) = JSON_number v.
Proof.
  destruct v as [| |f]; cbn [JSON_number]; try reflexivity.
  destruct (is_finite f) eqn:Hf; cbn [JSON_number]; [|reflexivity].
  rewrite is_finite_json_finite, Hf, json_finite_idem. reflexivity.
Qed.

Lemma JSON_roundtrip_stable e : json_stable (JSON_roundtrip e).
Proof.
  unfold json_stable, JSON_roundtrip. cbn. rewrite JSON_number_idem. reflexivity.
Qed.

Lemma fmap_stable (l : list Expense) :
  Forall json_stable l -> JSON_roundtrip <$> l = l.
Proof.
  induction 1 as [|e l He _ IH]; [reflexivity|]. cbn. rewrite He. f_equal. exact IH.
Qed.

Lemma other_id_roundtrip i e : other_id i (JSON_roundtrip e) = other_id i e.
Proof. reflexivity. Qed.

Lemma Forall_stable_filter (f : Expense -> bool) l :
  Forall json_stable l -> Forall json_stable (List.filter f l).
Proof.
  induction 1 as [|e l He _ IH]; cbn [List.filter]; [constructor|].
  destruct (f e); [constructor; assumption | assumption].
Qed.

Lemma mock_fetch_add now_id now_date expense item :
  mock_fetchExpenses (snd (mock_addExpense now_id now_date expense item))
  = JSON_roundtrip (fst (mock_addExpense now_id now_date expense item))
    :: (JSON_roundtrip <$> mock_fetchExpenses item).
Proof. reflexivity. Qed.

Lemma mock_fetch_delete i item :
  mock_fetchExpenses (mock_deleteExpense i item)
  = JSON_roundtrip <$> List.filter (other_id i) (mock_fetchExpenses item).
Proof. reflexivity. Qed.

Lemma mock_new_row_id now_id now_date expense item :
  other_id now_id (JSON_roundtrip (fst (mock_addExpense now_id now_date expense item)))
  = false.
Proof. apply other_id_false. reflexivity. Qed.

(** X22: the mock's add.  The stored list afterwards is the new row, as
    JSON keeps it, before the rows stored so far; the row handed back has
    the id and date the mock assigned and the amount as given.  The stored
    row has the amount JSON carries: a finite amount itself, with [0] for
    [-0], and [null], which [Number] reads as 0, for an amount that is not
    finite, while the row handed back carries the amount as it was. *)
Theorem mock_add_then_fetch (now_id : N) (now_date : Z) (expense : Expense)
    (item : option (list Expense)) :
  Forall json_stable (mock_fetchExpenses item) ->
  let newExpense := fst (mock_addExpense now_id now_date expense item) in
  let item' := snd (mock_addExpense now_id now_date expense item) in
  mock_fetchExpenses item' = JSON_roundtrip newExpense :: mock_fetchExpenses item
  /\ _id newExpense = Value now_id /\ date newExpense = Value now_date
  /\ amount newExpense = amount expense
  /\ (forall f, amount expense = Value f -> is_finite f = true ->
        amount (JSON_roundtrip newExpense)
        = Value (if PrimFloat.eqb f 0 then 0%float else f))
  /\ (forall f, amount expense = Value f -> is_finite f = false ->
        amount (JSON_roundtrip newExpense) = Null
        /\ Number (amount (JSON_roundtrip newExpense)) = 0%float)
  /\ Forall json_stable (mock_fetchExpenses item').
Proof.
  intros Hst. cbv zeta. rewrite mock_fetch_add, (fmap_stable _ Hst).
  split; [reflexivity|]. split; [reflexivity|]. split; [reflexivity|].
  split; [reflexivity|]. split; [|split].
  - intros f Hf Hfin. cbn [mock_addExpense fst JSON_roundtrip amount]. rewrite Hf.
    cbn [JSON_number]. rewrite Hfin. reflexivity.
  - intros f Hf Hfin. cbn [mock_addExpense fst JSON_roundtrip amount]. rewrite Hf.
    cbn [JSON_number]. rewrite Hfin. split; reflexivity.
  - constructor; [apply JSON_roundtrip_stable | exact Hst].
Qed.

Lemma mock_add_then_fetch_witness :
  mock_fetchExpenses
    (snd (mock_addExpense 1793620800000 1793620800001
            (sample_tx 0 "expense" "Food" nan 0) None))
  = [ {| _id := Value 1793620800000%N; userId := Value 7%N; title := Value "entry";
         amount := Null; type := Value "expense"; category := Value "Food";
         date := Value 1793620800001 |} ]
  /\ amount (JSON_roundtrip
               (fst (mock_addExpense 1793620800000 1793620800001
                       (sample_tx 0 "expense" "Food" (-0) 0) None)))
     = Value 0%float.
Proof.
  split.
  - apply (mock_add_then_fetch 1793620800000 1793620800001
             (sample_tx 0 "expense" "Food" nan 0) None).
    constructor.
  - destruct (mock_add_then_fetch 1793620800000 1793620800001
                (sample_tx 0 "expense" "Food" (-0) 0) None (List.Forall_nil json_stable))
      as (_ & _ & _ & _ & Hzero & _).
    apply (Hzero (-0)%float); reflexivity.
Defined.

(** X23: the mock's delete removes every row with the given id and keeps
    the others in order.  As the ids are the clock's milliseconds, two rows
    added in the same millisecond share their id and one delete removes
    both; a row added under a fresh id and then deleted leaves the stored
    list as it was. *)
Theorem mock_delete_after_add (now_id : N) (d1 d2 : Z) (e1 e2 : Expense)
    (item : option (list Expense)) :
  Forall json_stable (mock_fetchExpenses item) ->
  let item1 := snd (mock_addExpense now_id d1 e1 item) in
  let item2 := snd (mock_addExpense now_id d2 e2 item1) in
  mock_fetchExpenses (mock_deleteExpense now_id item2)
  = List.filter (other_id now_id) (mock_fetchExpenses item)
  /\ mock_fetchExpenses (mock_deleteExpense now_id item1)
     = List.filter (other_id now_id) (mock_fetchExpenses item)
  /\ ((forall e, In e (mock_fetchExpenses item) -> _id e <> Value now_id) ->
      mock_fetchExpenses (mock_deleteExpense now_id item1) = mock_fetchExpenses item).
Proof.
  intros Hst. cbv zeta.
  assert (Hkeep : JSON_roundtrip <$> List.filter (other_id now_id) (mock_fetchExpenses item)
                  = List.filter (other_id now_id) (mock_fetchExpenses item))
    by (apply fmap_stable, Forall_stable_filter, Hst).
  assert (H1 : mock_fetchExpenses (mock_deleteExpense now_id
                 (snd (mock_addExpense now_id d1 e1 item)))
               = List.filter (other_id now_id) (mock_fetchExpenses item)).
  { rewrite mock_fetch_delete, mock_fetch_add. cbn [List.filter].
    rewrite mock_new_row_id, (fmap_stable _ Hst). exact Hkeep. }
  split; [|split; [exact H1|]].
  - rewrite mock_fetch_delete, mock_fetch_add. cbn [List.filter].
    rewrite mock_new_row_id, mock_fetch_add. cbn [fmap list_fmap List.filter].
    change (other_id now_id (JSON_roundtrip (JSON_roundtrip ?e)))
      with (other_id now_id (JSON_roundtrip e)).
    rewrite mock_new_row_id.
    change (list_fmap Expense Expense JSON_roundtrip ?l) with (JSON_roundtrip <$> l).
    rewrite !(fmap_stable _ Hst). exact Hkeep.
  - intros Hfresh. rewrite H1. apply filter_all_true.
    intros e He. apply other_id_true, Hfresh, He.
Qed.

Lemma mock_delete_after_add_witness :
  mock_fetchExpenses
    (mock_deleteExpense 1793620800000
       (snd (mock_addExpense 1793620800000 1793620800000
               (sample_tx 0 "income" "Salary" 10 0)
               (snd (mock_addExpense 1793620800000 1793620800000
                       (sample_tx 0 "expense" "Food" 3 0) None)))))
  = [].
Proof.
  refine (proj1 (mock_delete_after_add 1793620800000 1793620800000 1793620800000
                   (sample_tx 0 "expense" "Food" 3 0) (sample_tx 0 "income" "Salary" 10 0)
                   None _)).
  constructor.
Defined.

(** ** Loading the list *)


